(** * hs_timer: a callback-driven POSIX timer object

    Shallow embedding of [src/hs_timer.c] and of the part of the POSIX
    per-process timer interface it drives ([timer_create], [timer_settime],
    [timer_delete]).

    Conventions of the embedding.
    - A [hs_timer_t *] is an address in [Z]; [0] is [NULL].  The heap maps the
      addresses of the live (malloc'ed, not yet freed) objects to their
      contents.  Calling a function on a non-null address that is not live is
      undefined behaviour in C; the functions return [None] there.
    - [uint32_t] values are integers in [Z]; the two places where the C code
      computes on them ([repeat_count--], the millisecond conversion) and the
      [-1] stored by [hs_timer_create] have the 32-bit wrap-around written out.
    - Every public function holds the object's mutex from its first access to
      its return, so each call is one atomic step on the machine.  The
      notification thread [hs_timer_thread] is two such critical sections with
      the user callback running unlocked in between.
    - What the operating system decides (whether [timer_create] or
      [timer_settime] fails, which id or address it hands out) is an explicit
      extra argument of the function that makes the call. *)

From stdpp Require Import base option list gmap fin_maps.
From Stdlib Require Import ZArith Lia.

Local Open Scope Z_scope.

(** ** Machine integers *)

Definition UINT32_MAX : Z := 4294967295.

(** Conversion to [uint32_t]: reduction modulo [2^32]. *)
Definition u32 (z : Z) : Z := z mod 4294967296.

(** [HS_TIMER_REPEAT_ONCE] and [HS_TIMER_REPEAT_FOREVER] of [hs_timer.h]. *)
Definition HS_TIMER_REPEAT_ONCE : Z := 1.
Definition HS_TIMER_REPEAT_FOREVER : Z := UINT32_MAX.

(** ** POSIX timers *)

Record timespec := mk_timespec { tv_sec : Z; tv_nsec : Z }.

Record itimerspec := mk_itimerspec { it_interval : timespec; it_value : timespec }.

(** [struct itimerspec timer_spec = {0};] *)
Definition itimerspec_zero : itimerspec :=
  mk_itimerspec (mk_timespec 0 0) (mk_timespec 0 0).

(** POSIX: a timer whose [it_value] is zero is disarmed. *)
Definition disarms (s : itimerspec) : bool :=
  (tv_sec (it_value s) =? 0) && (tv_nsec (it_value s) =? 0).

(** A kernel timer: the [sigev_value.sival_ptr] it was created with, handed
    to the notification function on expiry, and its current setting. *)
Record posix_timer := mk_posix_timer { sival_ptr : Z; setting : itimerspec }.

(** [timer_create(CLOCK_MONOTONIC, &sig_event, &id)].  [created] is the
    kernel's answer: [None] for failure ([-1]), [Some id] for the id of the
    new timer, which starts disarmed. *)
Definition timer_create (created : option Z) (sival : Z)
    (k : gmap Z posix_timer) : Z * option Z * gmap Z posix_timer :=
  match created with
  | None => (-1, None, k)
  | Some id => (0, Some id, <[id := mk_posix_timer sival itimerspec_zero]> k)
  end.

(** [timer_settime(id, 0, &new_value, NULL)].  It fails with [EINVAL] on an id
    that is not a live timer, and otherwise when the kernel says so
    ([armed = false]). *)
Definition timer_settime (armed : bool) (id : Z) (new_value : itimerspec)
    (k : gmap Z posix_timer) : Z * gmap Z posix_timer :=
  match k !! id with
  | None => (-1, k)
  | Some tm =>
      if armed then (0, <[id := mk_posix_timer (sival_ptr tm) new_value]> k)
      else (-1, k)
  end.

(** [timer_delete(id)]: no effect on an id that is not live. *)
Definition timer_delete (id : Z) (k : gmap Z posix_timer) : gmap Z posix_timer :=
  delete id k.

(** ** The timer object *)

Inductive hs_timer_status_e :=
| E_HS_TIMER_STATUS_CREATED
| E_HS_TIMER_STATUS_RUNNING
| E_HS_TIMER_STATUS_PAUSED
| E_HS_TIMER_STATUS_REQUEST_DESTROY.

#[global] Instance hs_timer_status_e_eq_dec : EqDecision hs_timer_status_e.
Proof. solve_decision. Defined.

(** [struct _hs_timer], without the mutex (see the conventions above).
    [timer_cb] and [user_data] are addresses, [0] for [NULL]. *)
Record hs_timer_t := mk_hs_timer {
  timer_id : Z;
  status : hs_timer_status_e;
  timer_cb : Z;
  repeat_count : Z;
  timeout_ms : Z;
  user_data : Z
}.

Definition set_timer_id (v : Z) (t : hs_timer_t) : hs_timer_t :=
  mk_hs_timer v (status t) (timer_cb t) (repeat_count t) (timeout_ms t) (user_data t).
Definition set_status (v : hs_timer_status_e) (t : hs_timer_t) : hs_timer_t :=
  mk_hs_timer (timer_id t) v (timer_cb t) (repeat_count t) (timeout_ms t) (user_data t).
Definition set_timer_cb (v : Z) (t : hs_timer_t) : hs_timer_t :=
  mk_hs_timer (timer_id t) (status t) v (repeat_count t) (timeout_ms t) (user_data t).
Definition set_repeat_count (v : Z) (t : hs_timer_t) : hs_timer_t :=
  mk_hs_timer (timer_id t) (status t) (timer_cb t) v (timeout_ms t) (user_data t).
Definition set_timeout_ms (v : Z) (t : hs_timer_t) : hs_timer_t :=
  mk_hs_timer (timer_id t) (status t) (timer_cb t) (repeat_count t) v (user_data t).
Definition set_user_data (v : Z) (t : hs_timer_t) : hs_timer_t :=
  mk_hs_timer (timer_id t) (status t) (timer_cb t) (repeat_count t) (timeout_ms t) v.

(** The machine: the live timer objects and the kernel's timers. *)
Record Machine := mk_machine {
  heap : gmap Z hs_timer_t;
  posix : gmap Z posix_timer
}.

(** [hs_timer->field = v] on the live object at [p]. *)
Definition store (p : Z) (t : hs_timer_t) (m : Machine) : Machine :=
  mk_machine (<[p := t]> (heap m)) (posix m).

Definition with_posix (k : gmap Z posix_timer) (m : Machine) : Machine :=
  mk_machine (heap m) k.

(** [pthread_mutex_destroy(&hs_timer->mutex); free(hs_timer);] *)
Definition free (p : Z) (m : Machine) : Machine :=
  mk_machine (delete p (heap m)) (posix m).

(** ** Static helpers *)

(** [hs_timer_can_set_params], on the contents of a non-null object. *)
Definition hs_timer_can_set_params (t : hs_timer_t) : bool :=
  bool_decide (status t = E_HS_TIMER_STATUS_CREATED)
  || bool_decide (status t = E_HS_TIMER_STATUS_RUNNING)
  || bool_decide (status t = E_HS_TIMER_STATUS_PAUSED).

(** [hs_timer_ms_to_timespec_one_shot].  The output pointer is [None] for
    [NULL] and [Some s] for a structure currently holding [s]; the result is
    the return value and the structure afterwards.  [ms / 1000] and
    [(ms % 1000) * 1000000] are computed in [uint32_t]. *)
Definition hs_timer_ms_to_timespec_one_shot (ms : Z) (timer_spec : option itimerspec)
    : Z * option itimerspec :=
  match timer_spec with
  | None => (-1, None)
  | Some _ =>
      (0, Some (mk_itimerspec (mk_timespec 0 0)
                  (mk_timespec (u32 (ms / 1000)) (u32 (u32 (ms mod 1000) * 1000000)))))
  end.

(** ** Public operations

    Each returns [None] on a dangling handle and otherwise the C return value
    with the machine after the call. *)

(** [hs_timer_create].  [addr] is what [malloc] returns ([0] on failure) and
    [junk] the indeterminate content of the [timer_id] field, which the
    function does not initialise.  [repeat_count = -1] converts to
    [UINT32_MAX]. *)
Definition hs_timer_create (addr junk : Z) (m : Machine) : Z * Machine :=
  if addr =? 0 then (0, m)
  else (addr, store addr
                (mk_hs_timer junk E_HS_TIMER_STATUS_CREATED 0 (u32 (-1)) 0 0) m).

(** [hs_timer_init]. *)
Definition hs_timer_init (created : option Z) (armed : bool)
    (hs_timer cb count tmo data : Z) (m : Machine) : option (Z * Machine) :=
  if hs_timer =? 0 then Some (-1, m) else
  t ← heap m !! hs_timer;
  (* already initialised: close it, then initialise again *)
  let k0 := if bool_decide (status t ≠ E_HS_TIMER_STATUS_CREATED)
            then timer_delete (timer_id t) (posix m) else posix m in
  let '(r, out, k1) := timer_create created hs_timer k0 in
  (* the kernel writes the new id into hs_timer->timer_id *)
  let t1 := set_timer_id (default (timer_id t) out) t in
  let m1 := store hs_timer t1 (with_posix k1 m) in
  if r =? -1 then Some (-3, m1) else
  let '(c, spec) := hs_timer_ms_to_timespec_one_shot tmo (Some itimerspec_zero) in
  if negb (c =? 0) then Some (-4, with_posix (timer_delete (timer_id t1) k1) m1) else
  let '(s, k2) := timer_settime armed (timer_id t1) (default itimerspec_zero spec) k1 in
  if s =? -1 then Some (-5, with_posix (timer_delete (timer_id t1) k2) m1) else
  Some (0, store hs_timer
             (mk_hs_timer (timer_id t1) E_HS_TIMER_STATUS_RUNNING cb count tmo data)
             (with_posix k2 m1)).

(** [hs_timer_destroy].  The [default] branch of the C [switch] has no
    counterpart: [status] only ever holds one of the four enumerators. *)
Definition hs_timer_destroy (hs_timer : Z) (m : Machine) : option (Z * Machine) :=
  if hs_timer =? 0 then Some (-1, m) else
  t ← heap m !! hs_timer;
  match status t with
  | E_HS_TIMER_STATUS_CREATED => Some (0, free hs_timer m)
  | E_HS_TIMER_STATUS_RUNNING =>
      Some (0, store hs_timer (set_status E_HS_TIMER_STATUS_REQUEST_DESTROY t) m)
  | E_HS_TIMER_STATUS_PAUSED =>
      Some (0, free hs_timer (with_posix (timer_delete (timer_id t) (posix m)) m))
  | E_HS_TIMER_STATUS_REQUEST_DESTROY => Some (0, m)
  end.

(** [hs_timer_set_cb]. *)
Definition hs_timer_set_cb (hs_timer cb : Z) (m : Machine) : option (Z * Machine) :=
  if hs_timer =? 0 then Some (-1, m) else
  t ← heap m !! hs_timer;
  if negb (hs_timer_can_set_params t) then Some (-2, m) else
  Some (0, store hs_timer (set_timer_cb cb t) m).

(** [hs_timer_set_repeat_count]. *)
Definition hs_timer_set_repeat_count (hs_timer count : Z) (m : Machine)
    : option (Z * Machine) :=
  if hs_timer =? 0 then Some (-1, m) else
  t ← heap m !! hs_timer;
  if negb (hs_timer_can_set_params t) then Some (-2, m) else
  Some (0, store hs_timer (set_repeat_count count t) m).

(** [hs_timer_set_timeout]. *)
Definition hs_timer_set_timeout (armed : bool) (hs_timer tmo : Z) (m : Machine)
    : option (Z * Machine) :=
  if hs_timer =? 0 then Some (-1, m) else
  t ← heap m !! hs_timer;
  if negb (hs_timer_can_set_params t) then Some (-2, m) else
  let '(c, spec) := hs_timer_ms_to_timespec_one_shot tmo (Some itimerspec_zero) in
  if negb (c =? 0) then Some (-3, m) else
  let '(s, k) := timer_settime armed (timer_id t) (default itimerspec_zero spec) (posix m) in
  if s =? -1 then Some (-4, with_posix k m) else
  Some (0, store hs_timer (set_timeout_ms tmo t) (with_posix k m)).

(** [hs_timer_set_user_data]. *)
Definition hs_timer_set_user_data (hs_timer data : Z) (m : Machine)
    : option (Z * Machine) :=
  if hs_timer =? 0 then Some (-1, m) else
  t ← heap m !! hs_timer;
  if negb (hs_timer_can_set_params t) then Some (-2, m) else
  Some (0, store hs_timer (set_user_data data t) m).

(** The getters leave the machine alone; the second component is what they
    write through the output pointer ([None]: nothing written). *)
Definition hs_timer_get_repeat_count (hs_timer : Z) (m : Machine)
    : option (Z * option Z) :=
  if hs_timer =? 0 then Some (-1, None) else
  t ← heap m !! hs_timer;
  Some (0, Some (repeat_count t)).

Definition hs_timer_get_timeout (hs_timer : Z) (m : Machine) : option (Z * option Z) :=
  if hs_timer =? 0 then Some (-1, None) else
  t ← heap m !! hs_timer;
  Some (0, Some (timeout_ms t)).

(** [hs_timer_get_user_data] returns the pointer itself, [NULL] on [NULL]. *)
Definition hs_timer_get_user_data (hs_timer : Z) (m : Machine) : option Z :=
  if hs_timer =? 0 then Some 0 else
  t ← heap m !! hs_timer;
  Some (user_data t).

(** The setting [hs_timer_ready] programs: one nanosecond from now. *)
Definition ready_spec : itimerspec :=
  mk_itimerspec (mk_timespec 0 0) (mk_timespec 0 1).

(** [hs_timer_ready]. *)
Definition hs_timer_ready (armed : bool) (hs_timer : Z) (m : Machine)
    : option (Z * Machine) :=
  if hs_timer =? 0 then Some (-1, m) else
  t ← heap m !! hs_timer;
  if bool_decide (status t ≠ E_HS_TIMER_STATUS_RUNNING)
     && bool_decide (status t ≠ E_HS_TIMER_STATUS_PAUSED)
  then Some (-2, m) else
  let '(s, k) := timer_settime armed (timer_id t) ready_spec (posix m) in
  if s =? -1 then Some (-3, with_posix k m) else
  Some (0, store hs_timer (set_status E_HS_TIMER_STATUS_RUNNING t) (with_posix k m)).

(** [hs_timer_pause]. *)
Definition hs_timer_pause (armed : bool) (hs_timer : Z) (m : Machine)
    : option (Z * Machine) :=
  if hs_timer =? 0 then Some (-1, m) else
  t ← heap m !! hs_timer;
  if bool_decide (status t ≠ E_HS_TIMER_STATUS_RUNNING)
     && bool_decide (status t ≠ E_HS_TIMER_STATUS_PAUSED)
  then Some (-2, m) else
  let '(s, k) := timer_settime armed (timer_id t) itimerspec_zero (posix m) in
  if s =? -1 then Some (-3, with_posix k m) else
  Some (0, store hs_timer (set_status E_HS_TIMER_STATUS_PAUSED t) (with_posix k m)).

(** [hs_timer_resume]. *)
Definition hs_timer_resume (armed : bool) (hs_timer : Z) (m : Machine)
    : option (Z * Machine) :=
  if hs_timer =? 0 then Some (-1, m) else
  t ← heap m !! hs_timer;
  if bool_decide (status t ≠ E_HS_TIMER_STATUS_PAUSED) then Some (-2, m) else
  let '(c, spec) := hs_timer_ms_to_timespec_one_shot (timeout_ms t) (Some itimerspec_zero) in
  if negb (c =? 0) then Some (-3, m) else
  let '(s, k) := timer_settime armed (timer_id t) (default itimerspec_zero spec) (posix m) in
  if s =? -1 then Some (-4, with_posix k m) else
  Some (0, store hs_timer (set_status E_HS_TIMER_STATUS_RUNNING t) (with_posix k m)).

(** [hs_timer_is_paused]. *)
Definition hs_timer_is_paused (hs_timer : Z) (m : Machine) : option bool :=
  if hs_timer =? 0 then Some false else
  t ← heap m !! hs_timer;
  Some (bool_decide (status t = E_HS_TIMER_STATUS_PAUSED)).

(** ** The operations as data

    One constructor per state-changing public function, carrying its
    arguments and the kernel's answers, so that statements can range over
    "any public operation" and scenarios can be written as lists of calls. *)
Inductive api_call :=
| Init (created : option Z) (armed : bool) (cb count tmo data : Z)
| Destroy
| SetCb (cb : Z)
| SetRepeatCount (count : Z)
| SetTimeout (armed : bool) (tmo : Z)
| SetUserData (data : Z)
| Ready (armed : bool)
| Pause (armed : bool)
| Resume (armed : bool).

Definition run_api (c : api_call) (hs_timer : Z) (m : Machine) : option (Z * Machine) :=
  match c with
  | Init created armed cb count tmo data =>
      hs_timer_init created armed hs_timer cb count tmo data m
  | Destroy => hs_timer_destroy hs_timer m
  | SetCb cb => hs_timer_set_cb hs_timer cb m
  | SetRepeatCount count => hs_timer_set_repeat_count hs_timer count m
  | SetTimeout armed tmo => hs_timer_set_timeout armed hs_timer tmo m
  | SetUserData data => hs_timer_set_user_data hs_timer data m
  | Ready armed => hs_timer_ready armed hs_timer m
  | Pause armed => hs_timer_pause armed hs_timer m
  | Resume armed => hs_timer_resume armed hs_timer m
  end.

(** Running a list of calls on one handle, return values dropped. *)
Fixpoint run_script (cs : list api_call) (hs_timer : Z) (m : Machine) : option Machine :=
  match cs with
  | [] => Some m
  | c :: cs' => r ← run_api c hs_timer m; run_script cs' hs_timer r.2
  end.

(** ** The notification thread *)

(** One invocation of a user callback: which function, on which handle, and
    the contents of the object it found on entry. *)
Record call := mk_call { call_cb : Z; call_arg : Z; call_seen : hs_timer_t }.

(** Lines 120-128 of [hs_timer_thread]: count the firing before the callback
    runs. *)
Definition thread_count (t : hs_timer_t) : hs_timer_t :=
  if (0 <? repeat_count t) && (repeat_count t <? UINT32_MAX) then
    let t1 := set_repeat_count (u32 (repeat_count t - 1)) t in
    if repeat_count t1 =? 0 then set_status E_HS_TIMER_STATUS_REQUEST_DESTROY t1
    else t1
  else t.

(** The teardown both critical sections share: [timer_delete], then destroy
    the mutex and free the object. *)
Definition thread_teardown (p : Z) (t : hs_timer_t) (m : Machine) : Machine :=
  free p (with_posix (timer_delete (timer_id t) (posix m)) m).

Section Thread.

(** What the user's callback functions do when called: [user_code f p m] is
    the machine after the function at address [f] ran on handle [p]. *)
Variable user_code : Z → Z → Machine → Machine.

(** Lines 132-135: the unlocked call of [hs_timer->timer_cb], if any. *)
Definition thread_invoke (p : Z) (m : Machine) : option (list call * Machine) :=
  t ← heap m !! p;
  if negb (timer_cb t =? 0)
  then Some ([mk_call (timer_cb t) p t], user_code (timer_cb t) p m)
  else Some ([], m).

(** Lines 138-163: the second critical section. *)
Definition thread_finish (armed : bool) (p : Z) (m : Machine) : option Machine :=
  t ← heap m !! p;
  if bool_decide (status t = E_HS_TIMER_STATUS_REQUEST_DESTROY)
     || (repeat_count t =? 0)
  then Some (thread_teardown p t m) else
  if bool_decide (status t = E_HS_TIMER_STATUS_RUNNING)
     && negb (repeat_count t =? 0)
  then
    let '(c, spec) :=
      hs_timer_ms_to_timespec_one_shot (timeout_ms t) (Some itimerspec_zero) in
    if negb (c =? 0) then Some m else
    Some (with_posix
            (timer_settime armed (timer_id t) (default itimerspec_zero spec) (posix m)).2
            m)
  else Some m.

(** [hs_timer_thread]: the result is the callback invocations it made and
    the machine it leaves. *)
Definition hs_timer_thread (armed : bool) (sigev_value : Z) (m : Machine)
    : option (list call * Machine) :=
  let hs_timer := sigev_value in
  if hs_timer =? 0 then Some ([], m) else
  t ← heap m !! hs_timer;
  if bool_decide (status t = E_HS_TIMER_STATUS_REQUEST_DESTROY)
  then Some ([], thread_teardown hs_timer t m) else
  let m1 := if (0 <? repeat_count t) && (repeat_count t <? UINT32_MAX)
            then store hs_timer (thread_count t) m else m in
  r ← thread_invoke hs_timer m1;
  m3 ← thread_finish armed hs_timer r.2;
  Some (r.1, m3).

(** Successive firings on one handle; [oks] gives the kernel's answer to
    each firing's re-arming. *)
Fixpoint fire (oks : list bool) (p : Z) (m : Machine) : option (list call * Machine) :=
  match oks with
  | [] => Some ([], m)
  | ok :: oks' =>
      r ← hs_timer_thread ok p m;
      r' ← fire oks' p r.2;
      Some (r.1 ++ r'.1, r'.2)
  end.

End Thread.

(** ** Scenario machines used by the closed examples *)

(** Nothing allocated, no kernel timer. *)
Definition boot : Machine := mk_machine ∅ ∅.

(** A callback that does not touch the machine. *)
Definition passive : Z → Z → Machine → Machine := λ _ _ m, m.

(** One timer object at address [100], freshly created. *)
Definition created_100 : Machine := (hs_timer_create 100 77 boot).2.

(** [run_script], with a machine to fall back on so that scenarios are plain
    machines. *)
Definition after (cs : list api_call) (p : Z) (m : Machine) : Machine :=
  default m (run_script cs p m).

(** A timer at [100], started with three firings of 50 ms to go. *)
Definition running_100 : Machine :=
  after [Init (Some 5) true 9 3 50 0] 100 created_100.

Definition running_timer : hs_timer_t :=
  mk_hs_timer 5 E_HS_TIMER_STATUS_RUNNING 9 3 50 0.

(** A timer at [100] that was started and then asked to go away. *)
Definition doomed_100 : Machine :=
  after [Init (Some 5) true 9 3 50 0; Destroy] 100 created_100.

Definition doomed_timer : hs_timer_t :=
  mk_hs_timer 5 E_HS_TIMER_STATUS_REQUEST_DESTROY 9 3 50 0.

(** A running timer whose re-initialisation failed: its kernel timer is
    gone. *)
Definition stale_100 : Machine :=
  after [Init (Some 5) true 9 3 50 0; Init None true 9 3 50 0] 100 created_100.

(** A timer at [100], started to fire every 50 ms for ever. *)
Definition forever_100 : Machine :=
  after [Init (Some 5) true 9 4294967295 50 0] 100 created_100.

Definition forever_timer : hs_timer_t :=
  mk_hs_timer 5 E_HS_TIMER_STATUS_RUNNING 9 4294967295 50 0.

(** The forever timer at [100] (timeout 50, unlimited count, no user data)
    after each of three successive setter calls, each of which changes the
    value it sets. *)
Definition tuned_1 : Machine := after [SetTimeout true 500] 100 forever_100.
Definition tuned_2 : Machine := after [SetRepeatCount 3] 100 tuned_1.
Definition tuned_3 : Machine := after [SetUserData 4096] 100 tuned_2.

(** The running timer at [100], paused. *)
Definition paused_100 : Machine := after [Pause true] 100 running_100.

Definition paused_timer : hs_timer_t :=
  mk_hs_timer 5 E_HS_TIMER_STATUS_PAUSED 9 3 50 0.

(** A second timer at [200], running on kernel timer 6, beside the running
    timer at [100]. *)
Definition two_timers : Machine :=
  after [Init (Some 6) true 8 1 20 0] 200 (hs_timer_create 200 0 running_100).2.

(** Callbacks that call back into the interface on their own handle: one
    that pauses the timer and one that destroys it. *)
Definition pausing : Z → Z → Machine → Machine := λ _ p m, after [Pause true] p m.
Definition destroying : Z → Z → Machine → Machine := λ _ p m, after [Destroy] p m.

(** ** Auxiliary notions for the statements *)

(** The kernel timers left once [hs_timer_init] has closed the timer of an
    object that was initialised before. *)
Definition closed_first (t : hs_timer_t) (k : gmap Z posix_timer) : gmap Z posix_timer :=
  if bool_decide (status t ≠ E_HS_TIMER_STATUS_CREATED) then delete (timer_id t) k else k.

(** The setting [hs_timer_init], [hs_timer_set_timeout], [hs_timer_resume]
    and the thread program for a timeout of [ms]. *)
Definition one_shot (ms : Z) : itimerspec :=
  default itimerspec_zero
    (hs_timer_ms_to_timespec_one_shot ms (Some itimerspec_zero)).2.


(** The status of the object at [p], if it is live. *)
Definition status_at (p : Z) (m : Machine) : option hs_timer_status_e :=
  status <$> heap m !! p.

(** A callback invocation of function [cb] on handle [p]. *)
Definition by_cb (p cb : Z) (c : call) : Prop := call_cb c = cb ∧ call_arg c = p.

(** ** Basic facts *)

Lemma nonnull_eqb (p : Z) : p ≠ 0 → (p =? 0) = false.
Proof. intros H. by apply Z.eqb_neq. Qed.

(** Entering a function on a live, non-null handle. *)
Ltac enter Hp Ht := rewrite (nonnull_eqb _ Hp), ?Ht; simpl.

Lemma u32_id (z : Z) : 0 ≤ z ≤ UINT32_MAX → u32 z = z.
Proof. unfold u32, UINT32_MAX. intros H. apply Z.mod_small. lia. Qed.

Lemma store_same (p : Z) (t : hs_timer_t) (m : Machine) :
  heap m !! p = Some t → store p t m = m.
Proof.
  intros H. destruct m as [h k]. unfold store. simpl in *.
  f_equal. by apply insert_id.
Qed.

Lemma with_posix_same (m : Machine) : with_posix (posix m) m = m.
Proof. by destruct m. Qed.

Lemma can_set_params_request_destroy (t : hs_timer_t) :
  status t = E_HS_TIMER_STATUS_REQUEST_DESTROY → hs_timer_can_set_params t = false.
Proof. intros H. unfold hs_timer_can_set_params. by rewrite H. Qed.

Lemma ms_conversion_bounds (ms : Z) :
  0 ≤ ms ≤ UINT32_MAX →
  0 ≤ ms / 1000 ≤ 4294967 ∧ 0 ≤ ms mod 1000 < 1000.
Proof.
  unfold UINT32_MAX. intros H. split.
  - split; [apply Z.div_pos; lia |].
    apply Z.lt_succ_r, Z.div_lt_upper_bound; lia.
  - apply Z.mod_pos_bound. lia.
Qed.

(** ** The millisecond conversion *)

(** C10.  For a non-null output structure and every [uint32_t] value [ms],
    [hs_timer_ms_to_timespec_one_shot] returns 0 and writes
    [it_interval = {0, 0}], [it_value.tv_sec = ms / 1000] and
    [it_value.tv_nsec = (ms mod 1000) * 1000000]; the 32-bit arithmetic
    never wraps and the nanoseconds stay below one second.  For [ms = 0] the
    structure written is all zero, which POSIX reads as "disarm". *)
Theorem ms_to_timespec_one_shot_exact (ms : Z) (s : itimerspec) :
  0 ≤ ms ≤ UINT32_MAX →
  hs_timer_ms_to_timespec_one_shot ms (Some s)
  = (0, Some (mk_itimerspec (mk_timespec 0 0)
                (mk_timespec (ms / 1000) ((ms mod 1000) * 1000000))))
  ∧ 0 ≤ ms / 1000 ≤ UINT32_MAX
  ∧ 0 ≤ (ms mod 1000) * 1000000 ≤ 999000000
  ∧ hs_timer_ms_to_timespec_one_shot 0 (Some s) = (0, Some itimerspec_zero)
  ∧ disarms itimerspec_zero = true.
Proof.
  intros H. destruct (ms_conversion_bounds ms H) as [Hd Hm].
  assert (Hn : 0 ≤ (ms mod 1000) * 1000000 ≤ 999000000) by lia.
  repeat split; try (unfold UINT32_MAX in *; lia).
  unfold hs_timer_ms_to_timespec_one_shot.
  rewrite (u32_id (ms / 1000)) by (unfold UINT32_MAX; lia).
  rewrite (u32_id (ms mod 1000)) by (unfold UINT32_MAX; lia).
  rewrite (u32_id (ms mod 1000 * 1000000)) by (unfold UINT32_MAX; lia).
  reflexivity.
Qed.

(** The largest [uint32_t] value: 4294967 s and 295 ms. *)
Lemma ms_to_timespec_one_shot_exact_witness :
  0 ≤ 4294967295 ≤ UINT32_MAX
  ∧ hs_timer_ms_to_timespec_one_shot 4294967295 (Some ready_spec)
    = (0, Some (mk_itimerspec (mk_timespec 0 0) (mk_timespec 4294967 295000000))).
Proof.
  assert (H : 0 ≤ 4294967295 ≤ UINT32_MAX) by (unfold UINT32_MAX; lia).
  split; [exact H |].
  exact (proj1 (ms_to_timespec_one_shot_exact 4294967295 ready_spec H)).
Defined.

(** ** Operations on a timer that awaits destruction *)

(** C4.  On a timer whose status is [REQUEST_DESTROY], each of
    [hs_timer_set_cb], [hs_timer_set_repeat_count], [hs_timer_set_timeout],
    [hs_timer_set_user_data], [hs_timer_pause], [hs_timer_resume] and
    [hs_timer_ready] returns [-2] (invalid state) and leaves the whole
    machine, hence every field of the timer and the kernel's alarm, as it
    was. *)
Theorem request_destroy_rejects (p : Z) (m : Machine) (t : hs_timer_t) :
  p ≠ 0 →
  heap m !! p = Some t →
  status t = E_HS_TIMER_STATUS_REQUEST_DESTROY →
  (∀ cb, hs_timer_set_cb p cb m = Some (-2, m))
  ∧ (∀ count, hs_timer_set_repeat_count p count m = Some (-2, m))
  ∧ (∀ armed tmo, hs_timer_set_timeout armed p tmo m = Some (-2, m))
  ∧ (∀ data, hs_timer_set_user_data p data m = Some (-2, m))
  ∧ (∀ armed, hs_timer_pause armed p m = Some (-2, m))
  ∧ (∀ armed, hs_timer_resume armed p m = Some (-2, m))
  ∧ (∀ armed, hs_timer_ready armed p m = Some (-2, m)).
Proof.
  intros Hp Ht Hs.
  pose proof (can_set_params_request_destroy t Hs) as Hc.
  repeat split; intros;
    unfold hs_timer_set_cb, hs_timer_set_repeat_count, hs_timer_set_timeout,
      hs_timer_set_user_data, hs_timer_pause, hs_timer_resume, hs_timer_ready;
    enter Hp Ht; rewrite ?Hc, ?Hs; reflexivity.
Qed.

Lemma doomed_100_lookup : heap doomed_100 !! 100 = Some doomed_timer.
Proof. by vm_compute. Qed.

(** The destroyed-while-running timer at [100] rejects a timeout, a resume
    and a ready. *)
Lemma request_destroy_rejects_witness :
  (100 ≠ 0
   ∧ heap doomed_100 !! 100 = Some doomed_timer
   ∧ status doomed_timer = E_HS_TIMER_STATUS_REQUEST_DESTROY)
  ∧ hs_timer_set_timeout true 100 500 doomed_100 = Some (-2, doomed_100)
  ∧ hs_timer_resume true 100 doomed_100 = Some (-2, doomed_100)
  ∧ hs_timer_ready true 100 doomed_100 = Some (-2, doomed_100).
Proof.
  assert (Hp : 100 ≠ 0) by lia.
  destruct (request_destroy_rejects 100 doomed_100 doomed_timer Hp
              doomed_100_lookup eq_refl)
    as (_ & _ & H3 & _ & _ & H6 & H7).
  exact (conj (conj Hp (conj doomed_100_lookup eq_refl))
           (conj (H3 true 500) (conj (H6 true) (H7 true)))).
Defined.

(** ** Destruction *)

(** C6.  On a live handle [hs_timer_destroy] returns 0 in every status: from
    [CREATED] it frees the object at once; from [PAUSED] it deletes the
    kernel timer and frees the object at once; from [RUNNING] it only sets
    the status to [REQUEST_DESTROY]; from [REQUEST_DESTROY] it changes
    nothing.  Hence a second call after a destroy of a running timer succeeds
    too and changes nothing. *)
Theorem destroy_succeeds (p : Z) (m : Machine) (t : hs_timer_t) :
  p ≠ 0 →
  heap m !! p = Some t →
  (∃ m', hs_timer_destroy p m = Some (0, m'))
  ∧ (status t = E_HS_TIMER_STATUS_CREATED →
     hs_timer_destroy p m = Some (0, mk_machine (delete p (heap m)) (posix m)))
  ∧ (status t = E_HS_TIMER_STATUS_PAUSED →
     hs_timer_destroy p m
     = Some (0, mk_machine (delete p (heap m)) (delete (timer_id t) (posix m))))
  ∧ (status t = E_HS_TIMER_STATUS_RUNNING →
     hs_timer_destroy p m
     = Some (0, mk_machine
                  (<[p := set_status E_HS_TIMER_STATUS_REQUEST_DESTROY t]> (heap m))
                  (posix m))
     ∧ (r ← hs_timer_destroy p m; hs_timer_destroy p r.2) = hs_timer_destroy p m)
  ∧ (status t = E_HS_TIMER_STATUS_REQUEST_DESTROY →
     hs_timer_destroy p m = Some (0, m)).
Proof.
  intros Hp Ht. unfold hs_timer_destroy. enter Hp Ht.
  split; [destruct (status t); eauto |].
  split; [by intros -> |].
  split; [by intros -> |].
  split; [| by intros ->].
  intros ->. split; [reflexivity |].
  simpl. by rewrite lookup_insert_eq.
Qed.

Lemma running_100_lookup : heap running_100 !! 100 = Some running_timer.
Proof. by vm_compute. Qed.

(** Destroying the running timer at [100] twice. *)
Lemma destroy_succeeds_witness :
  (100 ≠ 0 ∧ heap running_100 !! 100 = Some running_timer)
  ∧ hs_timer_destroy 100 running_100 = Some (0, doomed_100)
  ∧ hs_timer_destroy 100 doomed_100 = Some (0, doomed_100).
Proof.
  assert (Hp : 100 ≠ 0) by lia.
  split; [exact (conj Hp running_100_lookup) |].
  destruct (destroy_succeeds 100 running_100 running_timer Hp running_100_lookup)
    as (_ & _ & _ & Hrun & _).
  destruct (Hrun eq_refl) as [H1 H2].
  split; [rewrite H1; by vm_compute |].
  destruct (destroy_succeeds 100 doomed_100 doomed_timer Hp doomed_100_lookup)
    as (_ & _ & _ & _ & Hrd).
  exact (Hrd eq_refl).
Defined.

(** ** Setters and getters *)

(** C8.  A setter that succeeds is read back by the matching getter.  On
    a live timer that is not marked for destruction
    [hs_timer_set_repeat_count] and [hs_timer_set_user_data] always return 0,
    and [hs_timer_set_timeout] returns 0 whenever the kernel accepts the new
    setting for the timer's live kernel timer.  Whenever one of the three
    setters returns 0, the matching getter, called next, returns exactly the
    value just set, whatever was stored before: [hs_timer_get_timeout] after
    [hs_timer_set_timeout], [hs_timer_get_repeat_count] after
    [hs_timer_set_repeat_count], [hs_timer_get_user_data] after
    [hs_timer_set_user_data]; in particular 500, 3 and [x] for the values
    500, 3 and [x]. *)
Theorem setter_getter_roundtrip (p : Z) (m : Machine) :
  (∀ armed tmo m', hs_timer_set_timeout armed p tmo m = Some (0, m') →
     hs_timer_get_timeout p m' = Some (0, Some tmo))
  ∧ (∀ count m', hs_timer_set_repeat_count p count m = Some (0, m') →
     hs_timer_get_repeat_count p m' = Some (0, Some count))
  ∧ (∀ data m', hs_timer_set_user_data p data m = Some (0, m') →
     hs_timer_get_user_data p m' = Some data)
  ∧ (∀ t, p ≠ 0 → heap m !! p = Some t →
       status t ≠ E_HS_TIMER_STATUS_REQUEST_DESTROY →
       (∀ tmo tm, posix m !! timer_id t = Some tm →
          ∃ m', hs_timer_set_timeout true p tmo m = Some (0, m')
                ∧ hs_timer_get_timeout p m' = Some (0, Some tmo))
       ∧ (∀ count,
            ∃ m', hs_timer_set_repeat_count p count m = Some (0, m')
                  ∧ hs_timer_get_repeat_count p m' = Some (0, Some count))
       ∧ (∀ data,
            ∃ m', hs_timer_set_user_data p data m = Some (0, m')
                  ∧ hs_timer_get_user_data p m' = Some data)).
Proof.
  unfold hs_timer_set_timeout, hs_timer_set_repeat_count, hs_timer_set_user_data,
    hs_timer_get_timeout, hs_timer_get_repeat_count, hs_timer_get_user_data.
  destruct (Z.eq_dec p 0) as [-> | Hp].
  { split; [intros ? ? ? [=] |]. split; [intros ? ? [=] |].
    split; [intros ? ? [=] |]. intros t Hp. by destruct Hp. }
  rewrite (nonnull_eqb _ Hp).
  destruct (heap m !! p) as [t |]; simpl.
  2: { split; [intros ? ? ? [=] |]. split; [intros ? ? [=] |].
       split; [intros ? ? [=] |]. intros t _ [=]. }
  split; [| split; [| split]].
  - intros armed tmo m'.
    destruct (hs_timer_can_set_params t); simpl; [| intros [=]].
    destruct (timer_settime armed (timer_id t) _ (posix m)) as [s k].
    destruct (s =? -1); [intros [=] |].
    intros [= <-]. simpl. by rewrite lookup_insert_eq.
  - intros count m'.
    destruct (hs_timer_can_set_params t); simpl; [| intros [=]].
    intros [= <-]. simpl. by rewrite lookup_insert_eq.
  - intros data m'.
    destruct (hs_timer_can_set_params t); simpl; [| intros [=]].
    intros [= <-]. simpl. by rewrite lookup_insert_eq.
  - intros t' _ [= <-] Hs.
    assert (Hc : hs_timer_can_set_params t = true)
      by (unfold hs_timer_can_set_params; by destruct (status t)).
    rewrite Hc. simpl. split; [| split].
    + intros tmo tm Htm. unfold timer_settime. rewrite Htm. simpl.
      eexists. split; [reflexivity |]. simpl. by rewrite lookup_insert_eq.
    + intros count. eexists. split; [reflexivity |]. simpl.
      by rewrite lookup_insert_eq.
    + intros data. eexists. split; [reflexivity |]. simpl.
      by rewrite lookup_insert_eq.
Qed.

(** On the forever timer at [100], which holds timeout 50, an unlimited
    repeat count and no user data: 500 ms, 3 repetitions and user data
    [4096] are each set with success and read back, and each differs from
    what was read before. *)
Lemma setter_getter_roundtrip_witness :
  (100 ≠ 0
   ∧ heap forever_100 !! 100 = Some forever_timer
   ∧ status forever_timer ≠ E_HS_TIMER_STATUS_REQUEST_DESTROY
   ∧ posix forever_100 !! timer_id forever_timer
     = Some (mk_posix_timer 100 (one_shot 50)))
  ∧ (hs_timer_get_timeout 100 forever_100 = Some (0, Some 50)
     ∧ hs_timer_set_timeout true 100 500 forever_100 = Some (0, tuned_1)
     ∧ hs_timer_get_timeout 100 tuned_1 = Some (0, Some 500))
  ∧ (hs_timer_get_repeat_count 100 tuned_1 = Some (0, Some UINT32_MAX)
     ∧ hs_timer_set_repeat_count 100 3 tuned_1 = Some (0, tuned_2)
     ∧ hs_timer_get_repeat_count 100 tuned_2 = Some (0, Some 3))
  ∧ (hs_timer_get_user_data 100 tuned_2 = Some 0
     ∧ hs_timer_set_user_data 100 4096 tuned_2 = Some (0, tuned_3)
     ∧ hs_timer_get_user_data 100 tuned_3 = Some 4096)
  ∧ (∃ m', hs_timer_set_timeout true 100 500 forever_100 = Some (0, m')
           ∧ hs_timer_get_timeout 100 m' = Some (0, Some 500))
  ∧ (∃ m', hs_timer_set_repeat_count 100 3 forever_100 = Some (0, m')
           ∧ hs_timer_get_repeat_count 100 m' = Some (0, Some 3))
  ∧ (∃ m', hs_timer_set_user_data 100 4096 forever_100 = Some (0, m')
           ∧ hs_timer_get_user_data 100 m' = Some 4096).
Proof.
  assert (Hp : 100 ≠ 0) by lia.
  assert (Ht : heap forever_100 !! 100 = Some forever_timer) by (by vm_compute).
  assert (Hs : status forever_timer ≠ E_HS_TIMER_STATUS_REQUEST_DESTROY) by done.
  assert (Htm : posix forever_100 !! timer_id forever_timer
                = Some (mk_posix_timer 100 (one_shot 50))) by (by vm_compute).
  assert (H1 : hs_timer_set_timeout true 100 500 forever_100 = Some (0, tuned_1))
    by (by vm_compute).
  assert (H2 : hs_timer_set_repeat_count 100 3 tuned_1 = Some (0, tuned_2))
    by (by vm_compute).
  assert (H3 : hs_timer_set_user_data 100 4096 tuned_2 = Some (0, tuned_3))
    by (by vm_compute).
  destruct (setter_getter_roundtrip 100 forever_100) as (G1 & _ & _ & Hlive).
  destruct (setter_getter_roundtrip 100 tuned_1) as (_ & G2 & _ & _).
  destruct (setter_getter_roundtrip 100 tuned_2) as (_ & _ & G3 & _).
  destruct (Hlive forever_timer Hp Ht Hs) as (L1 & L2 & L3).
  split; [exact (conj Hp (conj Ht (conj Hs Htm))) |].
  split; [exact (conj eq_refl (conj H1 (G1 true 500 tuned_1 H1))) |].
  split; [exact (conj eq_refl (conj H2 (G2 3 tuned_2 H2))) |].
  split; [exact (conj eq_refl (conj H3 (G3 4096 tuned_3 H3))) |].
  exact (conj (L1 500 _ Htm) (conj (L2 3) (L3 4096))).
Defined.

(** ** The notification thread: counting *)

Lemma thread_count_fields (t : hs_timer_t) :
  timer_id (thread_count t) = timer_id t
  ∧ timer_cb (thread_count t) = timer_cb t
  ∧ timeout_ms (thread_count t) = timeout_ms t
  ∧ user_data (thread_count t) = user_data t.
Proof.
  unfold thread_count.
  destruct ((0 <? repeat_count t) && (repeat_count t <? UINT32_MAX)); [| done].
  simpl. by destruct (u32 (repeat_count t - 1) =? 0).
Qed.

Lemma thread_count_idle (t : hs_timer_t) :
  repeat_count t = 0 ∨ repeat_count t = UINT32_MAX → thread_count t = t.
Proof.
  unfold thread_count. intros [-> | ->]; reflexivity.
Qed.

Lemma thread_count_more (t : hs_timer_t) :
  1 < repeat_count t < UINT32_MAX →
  thread_count t = set_repeat_count (repeat_count t - 1) t.
Proof.
  intros H. unfold thread_count.
  replace (0 <? repeat_count t) with true by (symmetry; apply Z.ltb_lt; lia).
  replace (repeat_count t <? UINT32_MAX) with true by (symmetry; apply Z.ltb_lt; lia).
  simpl. rewrite u32_id by lia.
  replace (repeat_count t - 1 =? 0) with false by (symmetry; apply Z.eqb_neq; lia).
  reflexivity.
Qed.

Lemma thread_count_last (t : hs_timer_t) :
  repeat_count t = 1 →
  thread_count t
  = set_status E_HS_TIMER_STATUS_REQUEST_DESTROY (set_repeat_count 0 t).
Proof. intros H. unfold thread_count. rewrite H. reflexivity. Qed.

(** The thread on a live object that is not yet marked for destruction: the
    count is stored first, the callback (if any) then runs on that machine,
    and the second critical section decides what happens next. *)
Lemma hs_timer_thread_unfold (user_code : Z → Z → Machine → Machine)
    (armed : bool) (p : Z) (m : Machine) (t : hs_timer_t) :
  p ≠ 0 →
  heap m !! p = Some t →
  status t ≠ E_HS_TIMER_STATUS_REQUEST_DESTROY →
  hs_timer_thread user_code armed p m
  = let t1 := thread_count t in
    let m1 := store p t1 m in
    m3 ← thread_finish armed p
           (if timer_cb t =? 0 then m1 else user_code (timer_cb t) p m1);
    Some (if timer_cb t =? 0 then [] else [mk_call (timer_cb t) p t1], m3).
Proof.
  intros Hp Ht Hs. unfold hs_timer_thread. enter Hp Ht.
  rewrite bool_decide_eq_false_2 by done.
  destruct (thread_count_fields t) as (_ & Hcb & _ & _).
  destruct ((0 <? repeat_count t) && (repeat_count t <? UINT32_MAX)) eqn:E.
  - unfold thread_invoke. simpl. rewrite lookup_insert_eq. simpl. rewrite Hcb.
    by destruct (timer_cb t =? 0).
  - assert (Hid : thread_count t = t) by (unfold thread_count; by rewrite E).
    rewrite Hid, (store_same p t m Ht).
    unfold thread_invoke. rewrite Ht. simpl.
    by destruct (timer_cb t =? 0).
Qed.

(** C5.  In a run of [hs_timer_thread] that gets past the first
    [REQUEST_DESTROY] test: a repeat count that is neither 0 nor [UINT32_MAX]
    is decreased by exactly one, and the status becomes [REQUEST_DESTROY]
    exactly when the new count is 0; a count equal to [UINT32_MAX] (or to 0)
    leaves the object as it is; the count never goes below 0; and the
    callback is invoked after the decrement, on a machine that already holds
    the new count. *)
Theorem thread_counts_before_callback (user_code : Z → Z → Machine → Machine)
    (armed : bool) (p : Z) (m : Machine) (t : hs_timer_t) :
  p ≠ 0 →
  heap m !! p = Some t →
  status t ≠ E_HS_TIMER_STATUS_REQUEST_DESTROY →
  0 ≤ repeat_count t ≤ UINT32_MAX →
  let t1 := thread_count t in
  let m1 := store p t1 m in
  (0 < repeat_count t < UINT32_MAX →
     repeat_count t1 = repeat_count t - 1
     ∧ (status t1 = E_HS_TIMER_STATUS_REQUEST_DESTROY ↔ repeat_count t1 = 0)
     ∧ (repeat_count t1 ≠ 0 → status t1 = status t))
  ∧ (repeat_count t = UINT32_MAX → t1 = t)
  ∧ (repeat_count t = 0 → t1 = t)
  ∧ 0 ≤ repeat_count t1 ≤ repeat_count t
  ∧ hs_timer_thread user_code armed p m
    = (m3 ← thread_finish armed p
              (if timer_cb t =? 0 then m1 else user_code (timer_cb t) p m1);
       Some (if timer_cb t =? 0 then [] else [mk_call (timer_cb t) p t1], m3)).
Proof.
  intros Hp Ht Hs Hr t1 m1.
  assert (Hdec : 0 < repeat_count t < UINT32_MAX →
                 repeat_count t1 = repeat_count t - 1
                 ∧ (status t1 = E_HS_TIMER_STATUS_REQUEST_DESTROY ↔ repeat_count t1 = 0)
                 ∧ (repeat_count t1 ≠ 0 → status t1 = status t)).
  { intros H. subst t1.
    destruct (Z.eq_dec (repeat_count t) 1) as [H1 | H1].
    - rewrite (thread_count_last t H1). simpl. rewrite H1. by repeat split.
    - rewrite (thread_count_more t) by lia. simpl.
      split; [done |]. split; [| done].
      split; [intros; contradiction | intros; lia]. }
  split; [exact Hdec |].
  split; [intros H; apply thread_count_idle; by right |].
  split; [intros H; apply thread_count_idle; by left |].
  split.
  - destruct (Z.eq_dec (repeat_count t) 0) as [H0 | H0].
    { subst t1. rewrite thread_count_idle by (by left). lia. }
    destruct (Z.eq_dec (repeat_count t) UINT32_MAX) as [HM | HM].
    { subst t1. rewrite thread_count_idle by (by right). lia. }
    destruct Hdec as (Hd & _); lia.
  - by apply hs_timer_thread_unfold.
Qed.

(** Three repetitions left: the count goes to 2 and the timer keeps running. *)
Lemma thread_counts_before_callback_witness :
  (100 ≠ 0
   ∧ heap running_100 !! 100 = Some running_timer
   ∧ status running_timer ≠ E_HS_TIMER_STATUS_REQUEST_DESTROY
   ∧ 0 ≤ repeat_count running_timer ≤ UINT32_MAX)
  ∧ repeat_count (thread_count running_timer) = 2
  ∧ status (thread_count running_timer) = E_HS_TIMER_STATUS_RUNNING.
Proof.
  assert (Hp : 100 ≠ 0) by lia.
  assert (Hs : status running_timer ≠ E_HS_TIMER_STATUS_REQUEST_DESTROY) by done.
  assert (Hr : 0 ≤ repeat_count running_timer ≤ UINT32_MAX) by (by vm_compute).
  split; [exact (conj Hp (conj running_100_lookup (conj Hs Hr))) |].
  destruct (thread_counts_before_callback passive true 100 running_100 running_timer
              Hp running_100_lookup Hs Hr) as (Hdec & _).
  assert (Hlt : 0 < repeat_count running_timer < UINT32_MAX) by (by vm_compute).
  destruct (Hdec Hlt) as (H1 & _ & H3).
  split; [exact H1 |].
  apply H3. rewrite H1. by vm_compute.
Defined.

(** ** The notification thread: teardown *)

Lemma thread_teardown_frees (p : Z) (t : hs_timer_t) (m : Machine) :
  heap (thread_teardown p t m) !! p = None
  ∧ posix (thread_teardown p t m) !! timer_id t = None.
Proof. unfold thread_teardown, timer_delete. simpl. by rewrite !lookup_delete_eq. Qed.

Lemma thread_finish_teardown (armed : bool) (p : Z) (m : Machine) (t : hs_timer_t) :
  heap m !! p = Some t →
  status t = E_HS_TIMER_STATUS_REQUEST_DESTROY ∨ repeat_count t = 0 →
  thread_finish armed p m = Some (thread_teardown p t m).
Proof.
  intros Ht H. unfold thread_finish. rewrite Ht. simpl.
  destruct H as [-> | ->]; [done |].
  by rewrite orb_true_r.
Qed.

Lemma thread_finish_rearm (armed : bool) (p : Z) (m : Machine) (t : hs_timer_t) :
  heap m !! p = Some t →
  status t = E_HS_TIMER_STATUS_RUNNING →
  repeat_count t ≠ 0 →
  thread_finish armed p m
  = Some (with_posix
            (timer_settime armed (timer_id t)
               (mk_itimerspec (mk_timespec 0 0)
                  (mk_timespec (u32 (timeout_ms t / 1000))
                     (u32 (u32 (timeout_ms t mod 1000) * 1000000))))
               (posix m)).2 m).
Proof.
  intros Ht Hs Hr. unfold thread_finish. rewrite Ht. simpl. rewrite Hs.
  apply Z.eqb_neq in Hr. by rewrite Hr.
Qed.

(** C9.  [hs_timer_set_repeat_count] accepts 0 on a timer that is not marked
    for destruction.  When the thread then runs on that timer (repeat count
    0, status not [REQUEST_DESTROY]) it does not decrement, it still calls
    the callback once, on the unchanged object, and if the object still has a
    zero repeat count after the callback the second critical section tears
    it down: the kernel timer is deleted and the object freed.  A repeat
    count set to 0 therefore gives one more firing, not none. *)
Theorem zero_repeat_count_fires_once (user_code : Z → Z → Machine → Machine)
    (armed : bool) (p : Z) (m : Machine) (t : hs_timer_t) :
  p ≠ 0 →
  heap m !! p = Some t →
  status t ≠ E_HS_TIMER_STATUS_REQUEST_DESTROY →
  timer_cb t ≠ 0 →
  let t0 := set_repeat_count 0 t in
  let m0 := store p t0 m in
  let m2 := user_code (timer_cb t) p m0 in
  hs_timer_set_repeat_count p 0 m = Some (0, m0)
  ∧ thread_count t0 = t0
  ∧ ∀ t2, heap m2 !! p = Some t2 → repeat_count t2 = 0 →
      hs_timer_thread user_code armed p m0
      = Some ([mk_call (timer_cb t) p t0], thread_teardown p t2 m2)
      ∧ heap (thread_teardown p t2 m2) !! p = None
      ∧ posix (thread_teardown p t2 m2) !! timer_id t2 = None.
Proof.
  intros Hp Ht Hs Hcb t0 m0 m2.
  split.
  { unfold hs_timer_set_repeat_count. enter Hp Ht.
    unfold hs_timer_can_set_params. by destruct (status t). }
  split; [by apply thread_count_idle; left |].
  intros t2 Ht2 Hr2.
  split; [| apply thread_teardown_frees].
  assert (Ht0 : heap m0 !! p = Some t0) by (subst m0; simpl; apply lookup_insert_eq).
  rewrite (hs_timer_thread_unfold user_code armed p m0 t0 Hp Ht0 Hs).
  cbv zeta.
  rewrite (thread_count_idle t0) by (by left).
  rewrite (store_same p t0 m0 Ht0).
  apply Z.eqb_neq in Hcb. change (timer_cb t0) with (timer_cb t). rewrite Hcb.
  fold m2. rewrite (thread_finish_teardown armed p m2 t2 Ht2) by (by right).
  reflexivity.
Qed.

(** The running timer at [100], its repeat count set to 0, then one firing
    with a passive callback: one call, and nothing is left. *)
Lemma zero_repeat_count_fires_once_witness :
  (100 ≠ 0
   ∧ heap running_100 !! 100 = Some running_timer
   ∧ status running_timer ≠ E_HS_TIMER_STATUS_REQUEST_DESTROY
   ∧ timer_cb running_timer ≠ 0)
  ∧ hs_timer_thread passive true 100 (after [SetRepeatCount 0] 100 running_100)
    = Some ([mk_call 9 100 (set_repeat_count 0 running_timer)], boot).
Proof.
  assert (Hp : 100 ≠ 0) by lia.
  assert (Hs : status running_timer ≠ E_HS_TIMER_STATUS_REQUEST_DESTROY) by done.
  assert (Hcb : timer_cb running_timer ≠ 0) by (by vm_compute).
  split; [exact (conj Hp (conj running_100_lookup (conj Hs Hcb))) |].
  destruct (zero_repeat_count_fires_once passive true 100 running_100 running_timer
              Hp running_100_lookup Hs Hcb) as (_ & _ & H).
  destruct (H (set_repeat_count 0 running_timer)) as (Hrun & _);
    [by vm_compute | reflexivity |].
  etransitivity; [| etransitivity; [exact Hrun |]]; by vm_compute.
Defined.

(** ** Initialisation, case by case *)

Lemma hs_timer_init_cases (created : option Z) (armed : bool)
    (p cb count tmo data : Z) (m : Machine) (t : hs_timer_t) :
  p ≠ 0 →
  heap m !! p = Some t →
  hs_timer_init created armed p cb count tmo data m
  = match created with
    | None => Some (-3, mk_machine (heap m) (closed_first t (posix m)))
    | Some id =>
        if armed
        then Some (0, mk_machine
                        (<[p := mk_hs_timer id E_HS_TIMER_STATUS_RUNNING cb count tmo data]>
                           (heap m))
                        (<[id := mk_posix_timer p (one_shot tmo)]>
                           (closed_first t (posix m))))
        else Some (-5, mk_machine (<[p := set_timer_id id t]> (heap m))
                         (delete id (closed_first t (posix m))))
    end.
Proof.
  intros Hp Ht. unfold hs_timer_init. enter Hp Ht.
  fold (closed_first t (posix m)). unfold timer_delete.
  destruct created as [id |]; simpl.
  - unfold timer_settime. rewrite lookup_insert_eq.
    destruct armed; simpl; unfold store; simpl.
    + by rewrite !insert_insert_eq.
    + by rewrite delete_insert_eq.
  - unfold store. simpl. rewrite insert_id; [done |].
    rewrite Ht. by destruct t.
Qed.

(** ** The notification thread: a finite repeat count *)

Lemma timer_settime_delete (armed : bool) (id : Z) (s : itimerspec)
    (k : gmap Z posix_timer) :
  delete id (timer_settime armed id s k).2 = delete id k.
Proof.
  unfold timer_settime. destruct (k !! id); [| done].
  destruct armed; [| done]. simpl. apply delete_insert_eq.
Qed.

Lemma set_repeat_count_same (t : hs_timer_t) : set_repeat_count (repeat_count t) t = t.
Proof. by destruct t. Qed.

Section Countdown.

Variable user_code : Z → Z → Machine → Machine.
Variables p cb : Z.
Hypothesis Hp : p ≠ 0.
Hypothesis Hcb : cb ≠ 0.
(** The callback leaves the timer and the kernel alone. *)
Hypothesis Hpassive : ∀ m, user_code cb p m = m.

Lemma fire_app (l1 l2 : list bool) (m : Machine) :
  fire user_code (l1 ++ l2) p m
  = (r ← fire user_code l1 p m;
     r' ← fire user_code l2 p r.2;
     Some (r.1 ++ r'.1, r'.2)).
Proof.
  revert m. induction l1 as [| ok l1 IH]; intros m; simpl.
  - destruct (fire user_code l2 p m) as [[c m'] |]; reflexivity.
  - destruct (hs_timer_thread user_code ok p m) as [[c1 m1] |]; simpl; [| done].
    rewrite IH.
    destruct (fire user_code l1 p m1) as [[c2 m2] |]; simpl; [| done].
    destruct (fire user_code l2 p m2) as [[c3 m3] |]; simpl; [| done].
    by rewrite app_assoc.
Qed.

Lemma fire_cons (ok : bool) (oks : list bool) (m : Machine)
    (c : list call) (m1 : Machine) :
  hs_timer_thread user_code ok p m = Some (c, m1) →
  fire user_code (ok :: oks) p m
  = (r' ← fire user_code oks p m1; Some (c ++ r'.1, r'.2)).
Proof. intros H. cbn [fire]. by rewrite H. Qed.

(** A firing with more than one repetition left. *)
Lemma thread_step_more (ok : bool) (m : Machine) (t : hs_timer_t) :
  heap m !! p = Some t →
  status t = E_HS_TIMER_STATUS_RUNNING →
  timer_cb t = cb →
  1 < repeat_count t < UINT32_MAX →
  let t1 := set_repeat_count (repeat_count t - 1) t in
  hs_timer_thread user_code ok p m
  = Some ([mk_call cb p t1],
          mk_machine (<[p := t1]> (heap m))
            (timer_settime ok (timer_id t) (one_shot (timeout_ms t)) (posix m)).2).
Proof.
  intros Ht Hs Hc Hr t1.
  rewrite (hs_timer_thread_unfold user_code ok p m t Hp Ht) by (by rewrite Hs).
  cbv zeta. rewrite (thread_count_more t Hr). fold t1.
  rewrite Hc. apply Z.eqb_neq in Hcb as ->. rewrite Hpassive.
  rewrite (thread_finish_rearm ok p (store p t1 m) t1);
    [done | apply lookup_insert_eq | exact Hs | simpl; lia].
Qed.

(** The firing that uses up the last repetition. *)
Lemma thread_step_last (ok : bool) (m : Machine) (t : hs_timer_t) :
  heap m !! p = Some t →
  status t = E_HS_TIMER_STATUS_RUNNING →
  timer_cb t = cb →
  repeat_count t = 1 →
  let t1 := set_status E_HS_TIMER_STATUS_REQUEST_DESTROY (set_repeat_count 0 t) in
  hs_timer_thread user_code ok p m
  = Some ([mk_call cb p t1],
          mk_machine (delete p (heap m)) (delete (timer_id t) (posix m))).
Proof.
  intros Ht Hs Hc Hr t1.
  rewrite (hs_timer_thread_unfold user_code ok p m t Hp Ht) by (by rewrite Hs).
  cbv zeta. rewrite (thread_count_last t Hr). fold t1.
  rewrite Hc. apply Z.eqb_neq in Hcb as ->. rewrite Hpassive.
  rewrite (thread_finish_teardown ok p (store p t1 m) t1);
    [| apply lookup_insert_eq | by left].
  unfold thread_teardown, free, with_posix, store, timer_delete. simpl.
  by rewrite delete_insert_eq.
Qed.

(** Fewer firings than repetitions: the timer is still running and has
    counted each of them. *)
Lemma fire_prefix (oks : list bool) (m : Machine) (t : hs_timer_t) :
  heap m !! p = Some t →
  status t = E_HS_TIMER_STATUS_RUNNING →
  timer_cb t = cb →
  Z.of_nat (length oks) < repeat_count t < UINT32_MAX →
  ∃ calls m',
    fire user_code oks p m = Some (calls, m')
    ∧ length calls = length oks
    ∧ Forall (by_cb p cb) calls
    ∧ heap m' = <[p := set_repeat_count (repeat_count t - Z.of_nat (length oks)) t]> (heap m)
    ∧ delete (timer_id t) (posix m') = delete (timer_id t) (posix m).
Proof.
  revert m t. induction oks as [| ok oks IH]; intros m t Ht Hs Hc Hr.
  - exists [], m. simpl. repeat split; [constructor |].
    rewrite Z.sub_0_r, set_repeat_count_same. symmetry. by apply insert_id.
  - cbn [length] in *. rewrite Nat2Z.inj_succ in *.
    assert (Hr1 : 1 < repeat_count t < UINT32_MAX) by lia.
    pose (t1 := set_repeat_count (repeat_count t - 1) t).
    pose (m1 := mk_machine (<[p := t1]> (heap m))
                  (timer_settime ok (timer_id t) (one_shot (timeout_ms t)) (posix m)).2).
    destruct (IH m1 t1) as (calls & m' & Hf & Hl & Hall & Hh & Hk);
      [apply lookup_insert_eq | exact Hs | exact Hc | simpl; lia |].
    exists (mk_call cb p t1 :: calls), m'.
    rewrite (fire_cons ok oks m _ m1 (thread_step_more ok m t Ht Hs Hc Hr1)), Hf.
    simpl.
    split; [done |]. split; [by rewrite Hl |].
    split; [constructor; [done | exact Hall] |].
    split.
    + rewrite Hh. cbn [heap m1]. unfold m1. cbn [heap].
      rewrite insert_insert_eq. f_equal.
      unfold t1, set_repeat_count. cbn [repeat_count timer_id status timer_cb timeout_ms user_data].
      f_equal. lia.
    + cbn in Hk. rewrite Hk. apply timer_settime_delete.
Qed.

(** As many firings as repetitions: one callback per firing, and the last
    firing has deleted the kernel timer and freed the object. *)
Lemma fire_countdown (oks : list bool) (m : Machine) (t : hs_timer_t) :
  heap m !! p = Some t →
  status t = E_HS_TIMER_STATUS_RUNNING →
  timer_cb t = cb →
  1 ≤ repeat_count t < UINT32_MAX →
  Z.of_nat (length oks) = repeat_count t →
  ∃ calls,
    fire user_code oks p m
    = Some (calls, mk_machine (delete p (heap m)) (delete (timer_id t) (posix m)))
    ∧ length calls = length oks
    ∧ Forall (by_cb p cb) calls.
Proof.
  intros Ht Hs Hc Hr Hlen.
  destruct oks as [| ok0 oks0] using rev_ind; [simpl in Hlen; lia |].
  clear IHoks0. rewrite length_app, Nat2Z.inj_add in Hlen. cbn in Hlen.
  destruct (fire_prefix oks0 m t Ht Hs Hc) as (calls & m1 & Hf & Hl & Hall & Hh & Hk);
    [lia |].
  pose (t1 := set_repeat_count (repeat_count t - Z.of_nat (length oks0)) t).
  fold t1 in Hh.
  assert (Ht1 : heap m1 !! p = Some t1) by (rewrite Hh; apply lookup_insert_eq).
  exists (calls ++ [mk_call cb p
                      (set_status E_HS_TIMER_STATUS_REQUEST_DESTROY
                         (set_repeat_count 0 t1))]).
  rewrite fire_app, Hf. simpl.
  rewrite (thread_step_last ok0 m1 t1 Ht1 Hs Hc) by (simpl; lia).
  simpl.
  split; [| split].
  - do 3 f_equal; [by rewrite Hh, delete_insert_eq | exact Hk].
  - by rewrite !length_app, Hl.
  - apply Forall_app. split; [exact Hall |]. by repeat constructor.
Qed.

End Countdown.

(** A successful [hs_timer_init] was given a live object, a new kernel timer
    and a successful arming. *)
Lemma hs_timer_init_success (created : option Z) (armed : bool)
    (p cb count tmo data : Z) (m m0 : Machine) :
  hs_timer_init created armed p cb count tmo data m = Some (0, m0) →
  ∃ id t,
    p ≠ 0 ∧ heap m !! p = Some t ∧ created = Some id ∧ armed = true
    ∧ m0 = mk_machine
             (<[p := mk_hs_timer id E_HS_TIMER_STATUS_RUNNING cb count tmo data]> (heap m))
             (<[id := mk_posix_timer p (one_shot tmo)]> (closed_first t (posix m))).
Proof.
  intros H.
  destruct (Z.eq_dec p 0) as [-> | Hp]; [discriminate H |].
  destruct (heap m !! p) as [t |] eqn:Ht.
  - rewrite (hs_timer_init_cases created armed p cb count tmo data m t Hp Ht) in H.
    destruct created as [id |]; [| discriminate H].
    destruct armed; [| discriminate H].
    injection H as <-. by exists id, t.
  - unfold hs_timer_init in H. rewrite (nonnull_eqb _ Hp), Ht in H. discriminate H.
Qed.

(** C2.  A timer initialised with a finite repeat count [N ≥ 1] is running
    with [N] repetitions to go.  From such a state, with a callback that is
    set and leaves the timer alone and no other operation in between, [N]
    runs of [hs_timer_thread] call the callback exactly [N] times; after any
    smaller number [k] of runs the timer is still live and running with
    [N - k] repetitions left; and the [N]-th run itself deletes the kernel
    timer and frees the object, without any call of [hs_timer_destroy]. *)
Theorem repeat_count_firings (user_code : Z → Z → Machine → Machine)
    (p cb N : Z) (m0 : Machine) (t0 : hs_timer_t) (oks : list bool) :
  p ≠ 0 →
  cb ≠ 0 →
  (∀ m, user_code cb p m = m) →
  1 ≤ N < UINT32_MAX →
  heap m0 !! p = Some t0 →
  status t0 = E_HS_TIMER_STATUS_RUNNING →
  timer_cb t0 = cb →
  repeat_count t0 = N →
  Z.of_nat (length oks) = N →
  (∀ created armed tmo data m m1,
     hs_timer_init created armed p cb N tmo data m = Some (0, m1) →
     ∃ t1, heap m1 !! p = Some t1 ∧ status t1 = E_HS_TIMER_STATUS_RUNNING
           ∧ timer_cb t1 = cb ∧ repeat_count t1 = N)
  ∧ (∃ calls,
       fire user_code oks p m0
       = Some (calls, mk_machine (delete p (heap m0)) (delete (timer_id t0) (posix m0)))
       ∧ Z.of_nat (length calls) = N
       ∧ Forall (by_cb p cb) calls)
  ∧ (∀ k, (k < length oks)%nat →
       ∃ calls m' t',
         fire user_code (take k oks) p m0 = Some (calls, m')
         ∧ length calls = k
         ∧ heap m' !! p = Some t'
         ∧ status t' = E_HS_TIMER_STATUS_RUNNING
         ∧ repeat_count t' = N - Z.of_nat k).
Proof.
  intros Hp Hcb Hpassive HN Ht Hs Hc Hr Hlen.
  split; [| split].
  - intros created armed tmo data m m1 Hinit.
    destruct (hs_timer_init_success _ _ _ _ _ _ _ _ _ Hinit)
      as (id & t & _ & _ & _ & _ & ->).
    eexists. split; [apply lookup_insert_eq | done].
  - destruct (fire_countdown user_code p cb Hp Hcb Hpassive oks m0 t0 Ht Hs Hc)
      as (calls & Hf & Hl & Hall); [lia | lia |].
    exists calls. split; [exact Hf |]. split; [lia | exact Hall].
  - intros k Hk.
    assert (Hlk : length (take k oks) = k) by (rewrite length_take; lia).
    destruct (fire_prefix user_code p cb Hp Hcb Hpassive (take k oks) m0 t0 Ht Hs Hc)
      as (calls & m' & Hf & Hl & _ & Hh & _); [lia |].
    exists calls, m'. eexists.
    split; [exact Hf |]. split; [lia |].
    split; [rewrite Hh; apply lookup_insert_eq |].
    split; [exact Hs |]. simpl. lia.
Qed.

(** Three firings of the timer at [100]: three calls, and nothing is left. *)
Lemma repeat_count_firings_witness :
  (100 ≠ 0 ∧ 9 ≠ 0 ∧ (∀ m, passive 9 100 m = m) ∧ 1 ≤ 3 < UINT32_MAX
   ∧ heap running_100 !! 100 = Some running_timer
   ∧ status running_timer = E_HS_TIMER_STATUS_RUNNING
   ∧ timer_cb running_timer = 9
   ∧ repeat_count running_timer = 3
   ∧ Z.of_nat (length [true; true; true]) = 3)
  ∧ ∃ calls,
      fire passive [true; true; true] 100 running_100 = Some (calls, boot)
      ∧ Z.of_nat (length calls) = 3.
Proof.
  assert (Hp : 100 ≠ 0) by lia.
  assert (Hcb : 9 ≠ 0) by lia.
  assert (Hpassive : ∀ m, passive 9 100 m = m) by reflexivity.
  assert (HN : 1 ≤ 3 < UINT32_MAX) by (by vm_compute).
  assert (Hlen : Z.of_nat (length [true; true; true]) = 3) by reflexivity.
  split; [exact (conj Hp (conj Hcb (conj Hpassive (conj HN
            (conj running_100_lookup (conj eq_refl (conj eq_refl (conj eq_refl Hlen)))))))) |].
  destruct (repeat_count_firings passive 100 9 3 running_100 running_timer
              [true; true; true] Hp Hcb Hpassive HN running_100_lookup
              eq_refl eq_refl eq_refl Hlen) as (_ & (calls & Hf & Hl & _) & _).
  exists calls. split; [| exact Hl].
  rewrite Hf. by vm_compute.
Defined.

(** ** Once destruction is requested *)





(** ** Initialisation: success and failure *)

(** C3, what fails: re-initialising closes the old kernel timer before the
    new one is asked for.  On the running timer at [100], which owns kernel
    timer 5, an [hs_timer_init] whose [timer_create] fails returns [-3] and
    the object is unchanged, but kernel timer 5 is gone. *)
Lemma failed_init_loses_alarm :
  posix running_100 !! 5 = Some (mk_posix_timer 100 (one_shot 50))
  ∧ ∃ m', hs_timer_init None true 100 8 1 20 0 running_100 = Some (-3, m')
          ∧ heap m' !! 100 = heap running_100 !! 100
          ∧ heap m' !! 100 = Some running_timer
          ∧ timer_id running_timer = 5
          ∧ posix m' !! 5 = None.
Proof.
  split; [by vm_compute |].
  eexists. split; [by vm_compute |]. by vm_compute.
Qed.

(** C3, as the code has it.  [hs_timer_init] on a live object, with the
    kernel handing out an id that is not in use.  It returns 0 exactly when
    both [timer_create] and [timer_settime] succeed; the object then is
    [RUNNING] and holds the new timer id and the four supplied parameters,
    and the new kernel timer is armed for the timeout.  In every other case
    it returns a negative code; status, callback, repeat count, timeout and
    user data are as before, other objects are untouched, and a kernel timer
    that was created is deleted again.  The kernel timer owned before the
    call survives a failure only if the status was [CREATED]: for any other
    status it was deleted up front and stays deleted. *)
Theorem init_outcomes (created : option Z) (armed : bool)
    (p cb count tmo data : Z) (m : Machine) (t : hs_timer_t) :
  p ≠ 0 →
  heap m !! p = Some t →
  (∀ id, created = Some id → closed_first t (posix m) !! id = None) →
  ∃ r m' t',
    hs_timer_init created armed p cb count tmo data m = Some (r, m')
    ∧ heap m' = <[p := t']> (heap m)
    ∧ (r = 0 ↔ is_Some created ∧ armed = true)
    ∧ (r = 0 →
       ∃ id, created = Some id
         ∧ t' = mk_hs_timer id E_HS_TIMER_STATUS_RUNNING cb count tmo data
         ∧ posix m' = <[id := mk_posix_timer p (one_shot tmo)]>
                        (closed_first t (posix m)))
    ∧ (r ≠ 0 →
       r < 0
       ∧ status t' = status t ∧ timer_cb t' = timer_cb t
       ∧ repeat_count t' = repeat_count t ∧ timeout_ms t' = timeout_ms t
       ∧ user_data t' = user_data t
       ∧ posix m' = closed_first t (posix m)
       ∧ (status t = E_HS_TIMER_STATUS_CREATED → posix m' = posix m)
       ∧ (status t ≠ E_HS_TIMER_STATUS_CREATED →
          posix m' = delete (timer_id t) (posix m))).
Proof.
  intros Hp Ht Hfresh.
  rewrite (hs_timer_init_cases created armed p cb count tmo data m t Hp Ht).
  assert (Hc : status t = E_HS_TIMER_STATUS_CREATED → closed_first t (posix m) = posix m).
  { intros E. unfold closed_first. by rewrite E. }
  assert (Hn : status t ≠ E_HS_TIMER_STATUS_CREATED →
               closed_first t (posix m) = delete (timer_id t) (posix m)).
  { intros E. unfold closed_first. by rewrite bool_decide_eq_true_2. }
  destruct created as [id |]; [destruct armed |].
  - eexists 0, _, _. split; [reflexivity |]. simpl.
    split; [reflexivity |].
    split; [split; [by eauto | done] |].
    split; [intros _; by exists id | done].
  - eexists (-5), _, (set_timer_id id t). split; [reflexivity |]. simpl.
    split; [reflexivity |].
    split; [split; [done | by intros [_ ?]] |].
    split; [done |]. intros _.
    assert (Hd : delete id (closed_first t (posix m)) = closed_first t (posix m))
      by (apply delete_id; by apply Hfresh).
    rewrite Hd. repeat (split; [done || lia |]). exact Hn.
  - eexists (-3), _, t. split; [reflexivity |]. simpl.
    split; [symmetry; by apply insert_id |].
    split; [split; [done | by intros [[? ?] _]] |].
    split; [done |]. intros _.
    repeat (split; [done || lia |]). exact Hn.
Qed.

(** Initialising the fresh object at [100] with a failing [timer_settime]. *)
Lemma init_outcomes_witness :
  (100 ≠ 0
   ∧ heap created_100 !! 100
     = Some (mk_hs_timer 77 E_HS_TIMER_STATUS_CREATED 0 UINT32_MAX 0 0)
   ∧ ∀ id, Some 5 = Some id →
       closed_first (mk_hs_timer 77 E_HS_TIMER_STATUS_CREATED 0 UINT32_MAX 0 0)
         (posix created_100) !! id = None)
  ∧ ∃ r m' t',
      hs_timer_init (Some 5) false 100 9 3 50 0 created_100 = Some (r, m')
      ∧ heap m' = <[100 := t']> (heap created_100)
      ∧ (r ≠ 0 → status t' = E_HS_TIMER_STATUS_CREATED ∧ posix m' = posix created_100).
Proof.
  assert (Hp : 100 ≠ 0) by lia.
  assert (Ht : heap created_100 !! 100
               = Some (mk_hs_timer 77 E_HS_TIMER_STATUS_CREATED 0 UINT32_MAX 0 0))
    by (by vm_compute).
  assert (Hfresh : ∀ id, Some 5 = Some id →
            closed_first (mk_hs_timer 77 E_HS_TIMER_STATUS_CREATED 0 UINT32_MAX 0 0)
              (posix created_100) !! id = None)
    by (intros id _; apply lookup_empty).
  split; [exact (conj Hp (conj Ht Hfresh)) |].
  destruct (init_outcomes (Some 5) false 100 9 3 50 0 created_100 _ Hp Ht Hfresh)
    as (r & m' & t' & Hrun & Hh & _ & _ & Hfail).
  exists r, m', t'. split; [exact Hrun |]. split; [exact Hh |].
  intros Hr. destruct (Hfail Hr) as (_ & Hs & _ & _ & _ & _ & _ & Hk & _).
  split; [exact Hs | by apply Hk].
Defined.

(** ** Forcing the next firing *)

(** C7, what fails: [hs_timer_ready] on a [RUNNING] timer need not succeed.
    The timer at [100] was started and then re-initialised with a failing
    [timer_create]; it is still [RUNNING], and [hs_timer_ready] returns [-3]
    because [timer_settime] rejects its timer id. *)
Lemma ready_can_fail_when_running :
  status_at 100 stale_100 = Some E_HS_TIMER_STATUS_RUNNING
  ∧ hs_timer_ready true 100 stale_100 = Some (-3, stale_100).
Proof. split; by vm_compute. Qed.

(** C7, as the code has it.  On a live timer whose status is [RUNNING] or
    [PAUSED], [hs_timer_ready] returns 0 exactly when [timer_settime]
    succeeds; then the status is [RUNNING], the kernel timer is set to fire
    once after one nanosecond, and the timer id, callback, repeat count,
    timeout and user data are unchanged.  When [timer_settime] fails it
    returns [-3] and changes nothing.  In status [CREATED] or
    [REQUEST_DESTROY] it returns [-2] and changes nothing. *)
Theorem ready_outcomes (armed : bool) (p : Z) (m : Machine) (t : hs_timer_t) :
  p ≠ 0 →
  heap m !! p = Some t →
  (status t = E_HS_TIMER_STATUS_RUNNING ∨ status t = E_HS_TIMER_STATUS_PAUSED →
     (∀ tm, posix m !! timer_id t = Some tm → armed = true →
        hs_timer_ready armed p m
        = Some (0, mk_machine
                     (<[p := mk_hs_timer (timer_id t) E_HS_TIMER_STATUS_RUNNING
                              (timer_cb t) (repeat_count t) (timeout_ms t) (user_data t)]>
                        (heap m))
                     (<[timer_id t := mk_posix_timer (sival_ptr tm) ready_spec]> (posix m))))
     ∧ (posix m !! timer_id t = None ∨ armed = false →
        hs_timer_ready armed p m = Some (-3, m)))
  ∧ (status t = E_HS_TIMER_STATUS_CREATED
     ∨ status t = E_HS_TIMER_STATUS_REQUEST_DESTROY →
     hs_timer_ready armed p m = Some (-2, m))
  ∧ disarms ready_spec = false.
Proof.
  intros Hp Ht. unfold hs_timer_ready. enter Hp Ht.
  split; [| split; [| reflexivity]].
  - intros Hs.
    assert (Hg : bool_decide (status t ≠ E_HS_TIMER_STATUS_RUNNING)
                 && bool_decide (status t ≠ E_HS_TIMER_STATUS_PAUSED) = false)
      by (destruct Hs as [-> | ->]; reflexivity).
    rewrite Hg. unfold timer_settime. split.
    + intros tm Htm ->. rewrite Htm. reflexivity.
    + intros [Hnone | ->].
      * rewrite Hnone. simpl. by rewrite with_posix_same.
      * destruct (posix m !! timer_id t); simpl; by rewrite with_posix_same.
  - intros [-> | ->]; reflexivity.
Qed.

(** [hs_timer_ready] on the running timer at [100], with and without the
    kernel's consent. *)
Lemma ready_outcomes_witness :
  (100 ≠ 0 ∧ heap running_100 !! 100 = Some running_timer)
  ∧ hs_timer_ready true 100 running_100
    = Some (0, mk_machine (heap running_100)
                 (<[5 := mk_posix_timer 100 ready_spec]> (posix running_100)))
  ∧ hs_timer_ready false 100 running_100 = Some (-3, running_100).
Proof.
  assert (Hp : 100 ≠ 0) by lia.
  split; [exact (conj Hp running_100_lookup) |].
  destruct (ready_outcomes true 100 running_100 running_timer Hp running_100_lookup)
    as (Hlive & _ & _).
  destruct (Hlive (or_introl eq_refl)) as (Hok & _).
  destruct (ready_outcomes false 100 running_100 running_timer Hp running_100_lookup)
    as (Hlive' & _ & _).
  destruct (Hlive' (or_introl eq_refl)) as (_ & Hfail).
  split.
  - rewrite (Hok (mk_posix_timer 100 (one_shot 50))); [by vm_compute | by vm_compute | done].
  - apply Hfail. by right.
Defined.

(** * Further properties of the code *)

(** ** The millisecond conversion, read back *)

(** X1.  The conversion loses nothing and is one-shot: for every [uint32_t]
    value [ms], seconds and nanoseconds of the setting programmed for [ms]
    add up to [ms] again, the interval is zero, and the setting disarms the
    timer exactly when [ms = 0].  On a [NULL] output pointer the function
    returns [-1] and writes nothing. *)
Theorem one_shot_reads_back (ms : Z) :
  0 ≤ ms ≤ UINT32_MAX →
  tv_sec (it_value (one_shot ms)) * 1000
    + tv_nsec (it_value (one_shot ms)) / 1000000 = ms
  ∧ tv_nsec (it_value (one_shot ms)) mod 1000000 = 0
  ∧ it_interval (one_shot ms) = mk_timespec 0 0
  ∧ (disarms (one_shot ms) = true ↔ ms = 0)
  ∧ hs_timer_ms_to_timespec_one_shot ms None = (-1, None).
Proof.
  intros H. destruct (ms_conversion_bounds ms H) as [Hd Hm].
  unfold one_shot, hs_timer_ms_to_timespec_one_shot, disarms. simpl.
  rewrite (u32_id (ms / 1000)) by (unfold UINT32_MAX; lia).
  rewrite (u32_id (ms mod 1000)) by (unfold UINT32_MAX; lia).
  rewrite (u32_id (ms mod 1000 * 1000000)) by (unfold UINT32_MAX; lia).
  rewrite Z.div_mul by lia. rewrite Z.mod_mul by lia.
  split; [pose proof (Z.div_mod ms 1000); lia |].
  split; [done |]. split; [done |]. split; [| done].
  rewrite andb_true_iff, !Z.eqb_eq. split.
  - intros [H1 H2]. pose proof (Z.div_mod ms 1000). lia.
  - intros ->. by vm_compute.
Qed.

(** 1500 ms is one second and 500 million nanoseconds. *)
Lemma one_shot_reads_back_witness :
  0 ≤ 1500 ≤ UINT32_MAX
  ∧ tv_sec (it_value (one_shot 1500)) * 1000
      + tv_nsec (it_value (one_shot 1500)) / 1000000 = 1500.
Proof.
  assert (H : 0 ≤ 1500 ≤ UINT32_MAX) by (unfold UINT32_MAX; lia).
  exact (conj H (proj1 (one_shot_reads_back 1500 H))).
Defined.

(** ** The [NULL] handle *)

(** X2.  On a [NULL] handle every state-changing function returns [-1], the
    two integer getters return [-1] without writing their output,
    [hs_timer_get_user_data] returns [NULL], [hs_timer_is_paused] returns
    false, and the notification thread returns at once without calling
    anything; the machine is untouched throughout. *)
Theorem null_handle_is_rejected (user_code : Z → Z → Machine → Machine) (m : Machine) :
  (∀ c, run_api c 0 m = Some (-1, m))
  ∧ hs_timer_get_repeat_count 0 m = Some (-1, None)
  ∧ hs_timer_get_timeout 0 m = Some (-1, None)
  ∧ hs_timer_get_user_data 0 m = Some 0
  ∧ hs_timer_is_paused 0 m = Some false
  ∧ ∀ armed, hs_timer_thread user_code armed 0 m = Some ([], m).
Proof.
  split; [intros c; by destruct c |]. by repeat split.
Qed.

(** ** Creation *)

(** X3.  [hs_timer_create] at a fresh address yields an object in status
    [CREATED] whose repeat count reads back as [HS_TIMER_REPEAT_FOREVER]
    (the [-1] in the source wraps to [UINT32_MAX]), whose timeout is 0 and
    whose user data is [NULL]; it is not paused, no kernel timer is touched
    and no other object changes.  Destroying it at once gives back the
    machine as it was.  When [malloc] fails the result is [NULL] and nothing
    changes. *)
Theorem create_defaults (addr junk : Z) (m : Machine) :
  addr ≠ 0 →
  heap m !! addr = None →
  let m' := (hs_timer_create addr junk m).2 in
  (hs_timer_create addr junk m).1 = addr
  ∧ status_at addr m' = Some E_HS_TIMER_STATUS_CREATED
  ∧ hs_timer_get_repeat_count addr m' = Some (0, Some HS_TIMER_REPEAT_FOREVER)
  ∧ hs_timer_get_timeout addr m' = Some (0, Some 0)
  ∧ hs_timer_get_user_data addr m' = Some 0
  ∧ hs_timer_is_paused addr m' = Some false
  ∧ posix m' = posix m
  ∧ (∀ q, q ≠ addr → heap m' !! q = heap m !! q)
  ∧ hs_timer_destroy addr m' = Some (0, m)
  ∧ hs_timer_create 0 junk m = (0, m).
Proof.
  intros Hp Hfree m'. subst m'. unfold hs_timer_create.
  rewrite (nonnull_eqb _ Hp). simpl.
  unfold status_at, hs_timer_get_repeat_count, hs_timer_get_timeout,
    hs_timer_get_user_data, hs_timer_is_paused, hs_timer_destroy.
  rewrite (nonnull_eqb _ Hp). simpl. rewrite lookup_insert_eq. simpl.
  repeat (split; [done |]).
  split; [intros q Hq; by apply lookup_insert_ne |].
  split; [| done].
  unfold free, store. simpl. rewrite delete_insert_eq, delete_id by done.
  by destruct m.
Qed.

(** Creating the object at [100] on the empty machine. *)
Lemma create_defaults_witness :
  (100 ≠ 0 ∧ heap boot !! 100 = None)
  ∧ hs_timer_get_repeat_count 100 created_100 = Some (0, Some HS_TIMER_REPEAT_FOREVER)
  ∧ hs_timer_destroy 100 created_100 = Some (0, boot).
Proof.
  assert (Hp : 100 ≠ 0) by lia.
  assert (Hfree : heap boot !! 100 = None) by apply lookup_empty.
  split; [exact (conj Hp Hfree) |].
  destruct (create_defaults 100 77 boot Hp Hfree)
    as (_ & _ & Hrc & _ & _ & _ & _ & _ & Hd & _).
  exact (conj Hrc Hd).
Defined.

(** ** Failure and interference *)

Lemma timer_settime_cases (armed : bool) (id : Z) (s : itimerspec)
    (k : gmap Z posix_timer) :
  timer_settime armed id s k = (-1, k)
  ∨ ∃ tm, k !! id = Some tm ∧ armed = true
          ∧ timer_settime armed id s k = (0, <[id := mk_posix_timer (sival_ptr tm) s]> k).
Proof.
  unfold timer_settime. destruct (k !! id) as [tm |]; [| by left].
  destruct armed; [right; by exists tm | by left].
Qed.

(** Splitting on what [timer_settime] answered inside an operation. *)
Ltac settime_cases :=
  let tm := fresh "tm" in
  let Htm := fresh "Htm" in
  let E := fresh "E" in
  match goal with
  | |- context [timer_settime ?a ?id ?s ?k] =>
      destruct (timer_settime_cases a id s k) as [E | (tm & Htm & -> & E)];
      rewrite E; simpl
  end.

(** X4.  All or nothing: apart from [hs_timer_init], a public operation that
    returns anything but 0 has changed nothing at all, neither the object nor
    any kernel timer; and the only return values are 0, [-1] (null handle),
    [-2] (wrong status) and [-3], [-4] (the kernel refused). *)
Theorem failed_call_changes_nothing (c : api_call) (p : Z) (m : Machine)
    (r : Z) (m' : Machine) :
  (∀ created armed cb count tmo data, c ≠ Init created armed cb count tmo data) →
  run_api c p m = Some (r, m') →
  (r ≠ 0 → m' = m) ∧ (r = 0 ∨ r = -1 ∨ r = -2 ∨ r = -3 ∨ r = -4).
Proof.
  intros Hc H.
  destruct (Z.eq_dec p 0) as [-> | Hp].
  { destruct c; simpl in H; injection H as <- <-; split; (done || lia). }
  destruct (heap m !! p) as [t |] eqn:Ht.
  2: { destruct c; simpl in H;
         unfold hs_timer_init, hs_timer_destroy, hs_timer_set_cb,
           hs_timer_set_repeat_count, hs_timer_set_timeout, hs_timer_set_user_data,
           hs_timer_ready, hs_timer_pause, hs_timer_resume in H;
         rewrite (nonnull_eqb _ Hp), Ht in H; discriminate H. }
  destruct c; simpl in H;
    [by destruct (Hc created armed cb count tmo data) | ..];
    unfold hs_timer_destroy, hs_timer_set_cb, hs_timer_set_repeat_count,
      hs_timer_set_timeout, hs_timer_set_user_data, hs_timer_ready, hs_timer_pause,
      hs_timer_resume in H;
    rewrite (nonnull_eqb _ Hp), Ht in H; simpl in H.
  - destruct (status t); injection H as <- <-; split; (done || lia).
  - destruct (hs_timer_can_set_params t); injection H as <- <-; split; (done || lia).
  - destruct (hs_timer_can_set_params t); injection H as <- <-; split; (done || lia).
  - destruct (hs_timer_can_set_params t); simpl in H;
      [| injection H as <- <-; split; (done || lia)].
    revert H. settime_cases;
      intros [= <- <-]; rewrite ?with_posix_same; split; (done || lia).
  - destruct (hs_timer_can_set_params t); injection H as <- <-; split; (done || lia).
  - destruct (bool_decide _ && bool_decide _); simpl in H;
      [injection H as <- <-; split; (done || lia) |].
    revert H. settime_cases;
      intros [= <- <-]; rewrite ?with_posix_same; split; (done || lia).
  - destruct (bool_decide _ && bool_decide _); simpl in H;
      [injection H as <- <-; split; (done || lia) |].
    revert H. settime_cases;
      intros [= <- <-]; rewrite ?with_posix_same; split; (done || lia).
  - destruct (bool_decide _); simpl in H;
      [injection H as <- <-; split; (done || lia) |].
    revert H. settime_cases;
      intros [= <- <-]; rewrite ?with_posix_same; split; (done || lia).
Qed.

(** Resuming the running timer at [100] is refused and changes nothing. *)
Lemma failed_call_changes_nothing_witness :
  ((∀ created armed cb count tmo data,
      Resume true ≠ Init created armed cb count tmo data)
   ∧ run_api (Resume true) 100 running_100 = Some (-2, running_100))
  ∧ (-2 ≠ 0 → running_100 = running_100).
Proof.
  assert (Hc : ∀ created armed cb count tmo data,
             Resume true ≠ Init created armed cb count tmo data) by done.
  assert (Hrun : run_api (Resume true) 100 running_100 = Some (-2, running_100))
    by (by vm_compute).
  split; [exact (conj Hc Hrun) |].
  exact (proj1 (failed_call_changes_nothing (Resume true) 100 running_100 (-2)
                  running_100 Hc Hrun)).
Defined.

(** X5.  Operations on one handle leave every other timer object alone, and
    the only kernel timers they can touch are the one named by the object's
    [timer_id] field and, for [hs_timer_init], the one the kernel has just
    created. *)
Theorem other_timers_untouched (c : api_call) (p : Z) (m : Machine) (t : hs_timer_t)
    (r : Z) (m' : Machine) :
  heap m !! p = Some t →
  run_api c p m = Some (r, m') →
  (∀ q, q ≠ p → heap m' !! q = heap m !! q)
  ∧ (∀ j, j ≠ timer_id t →
       (∀ armed cb count tmo data, c ≠ Init (Some j) armed cb count tmo data) →
       posix m' !! j = posix m !! j).
Proof.
  intros Ht H.
  destruct (Z.eq_dec p 0) as [-> | Hp].
  { destruct c; simpl in H; injection H as <- <-; by split. }
  destruct c; simpl in H.
  - rewrite (hs_timer_init_cases created armed p cb count tmo data m t Hp Ht) in H.
    assert (Hk : ∀ j, j ≠ timer_id t → closed_first t (posix m) !! j = posix m !! j).
    { intros j Hj. unfold closed_first. case_bool_decide; [| done].
      by apply lookup_delete_ne. }
    destruct created as [id |]; [destruct armed |]; injection H as <- <-; simpl.
    + split; [intros q Hq; by apply lookup_insert_ne |].
      intros j Hj Hc. rewrite lookup_insert_ne; [by apply Hk |].
      intros ->. by eapply Hc.
    + split; [intros q Hq; by apply lookup_insert_ne |].
      intros j Hj Hc. rewrite lookup_delete_ne; [by apply Hk |].
      intros ->. by eapply Hc.
    + split; [done |]. intros j Hj _. by apply Hk.
  - unfold hs_timer_destroy in H. rewrite (nonnull_eqb _ Hp), Ht in H. simpl in H.
    destruct (status t); injection H as <- <-; simpl.
    + split; [intros q Hq; by apply lookup_delete_ne | done].
    + split; [intros q Hq; by apply lookup_insert_ne | done].
    + split; [intros q Hq; by apply lookup_delete_ne |].
      intros j Hj _. by apply lookup_delete_ne.
    + by split.
  - unfold hs_timer_set_cb in H. rewrite (nonnull_eqb _ Hp), Ht in H. simpl in H.
    destruct (hs_timer_can_set_params t); injection H as <- <-; simpl;
      (split; [intros q Hq; by rewrite ?lookup_insert_ne | done]).
  - unfold hs_timer_set_repeat_count in H. rewrite (nonnull_eqb _ Hp), Ht in H.
    simpl in H.
    destruct (hs_timer_can_set_params t); injection H as <- <-; simpl;
      (split; [intros q Hq; by rewrite ?lookup_insert_ne | done]).
  - unfold hs_timer_set_timeout in H. rewrite (nonnull_eqb _ Hp), Ht in H. simpl in H.
    destruct (hs_timer_can_set_params t); simpl in H;
      [| injection H as <- <-; by split].
    revert H. settime_cases; intros [= <- <-]; simpl;
      (split; [intros q Hq; by rewrite ?lookup_insert_ne
              | intros j Hj _; by rewrite ?lookup_insert_ne]).
  - unfold hs_timer_set_user_data in H. rewrite (nonnull_eqb _ Hp), Ht in H.
    simpl in H.
    destruct (hs_timer_can_set_params t); injection H as <- <-; simpl;
      (split; [intros q Hq; by rewrite ?lookup_insert_ne | done]).
  - unfold hs_timer_ready in H. rewrite (nonnull_eqb _ Hp), Ht in H. simpl in H.
    destruct (bool_decide _ && bool_decide _); simpl in H;
      [injection H as <- <-; by split |].
    revert H. settime_cases; intros [= <- <-]; simpl;
      (split; [intros q Hq; by rewrite ?lookup_insert_ne
              | intros j Hj _; by rewrite ?lookup_insert_ne]).
  - unfold hs_timer_pause in H. rewrite (nonnull_eqb _ Hp), Ht in H. simpl in H.
    destruct (bool_decide _ && bool_decide _); simpl in H;
      [injection H as <- <-; by split |].
    revert H. settime_cases; intros [= <- <-]; simpl;
      (split; [intros q Hq; by rewrite ?lookup_insert_ne
              | intros j Hj _; by rewrite ?lookup_insert_ne]).
  - unfold hs_timer_resume in H. rewrite (nonnull_eqb _ Hp), Ht in H. simpl in H.
    destruct (bool_decide _); simpl in H;
      [injection H as <- <-; by split |].
    revert H. settime_cases; intros [= <- <-]; simpl;
      (split; [intros q Hq; by rewrite ?lookup_insert_ne
              | intros j Hj _; by rewrite ?lookup_insert_ne]).
Qed.

(** Pausing the timer at [100] leaves the timer at [200] and its kernel
    timer 6 alone. *)
Lemma other_timers_untouched_witness :
  (heap two_timers !! 100 = Some running_timer
   ∧ run_api (Pause true) 100 two_timers
     = Some (0, after [Pause true] 100 two_timers))
  ∧ heap (after [Pause true] 100 two_timers) !! 200
    = Some (mk_hs_timer 6 E_HS_TIMER_STATUS_RUNNING 8 1 20 0)
  ∧ posix (after [Pause true] 100 two_timers) !! 6
    = Some (mk_posix_timer 200 (one_shot 20)).
Proof.
  assert (Ht : heap two_timers !! 100 = Some running_timer) by (by vm_compute).
  assert (Hrun : run_api (Pause true) 100 two_timers
                 = Some (0, after [Pause true] 100 two_timers))
    by (by vm_compute).
  split; [exact (conj Ht Hrun) |].
  destruct (other_timers_untouched (Pause true) 100 two_timers running_timer 0
              (after [Pause true] 100 two_timers) Ht Hrun) as [Hh Hk].
  split.
  - rewrite Hh by lia. by vm_compute.
  - rewrite Hk; [by vm_compute | by vm_compute | done].
Defined.

(** ** Pausing and resuming *)

(** X6.  [hs_timer_pause] on a live timer.  In status [RUNNING] or [PAUSED]
    it returns 0 exactly when [timer_settime] succeeds; the kernel timer is
    then disarmed (all-zero setting), the status is [PAUSED] and nothing else
    in the object changes; a second pause succeeds again and changes nothing
    more, and [hs_timer_is_paused] answers true.  When [timer_settime] fails
    it returns [-3], in status [CREATED] or [REQUEST_DESTROY] it returns
    [-2]; nothing changes in either case. *)
Theorem pause_outcomes (armed : bool) (p : Z) (m : Machine) (t : hs_timer_t) :
  p ≠ 0 →
  heap m !! p = Some t →
  (status t = E_HS_TIMER_STATUS_RUNNING ∨ status t = E_HS_TIMER_STATUS_PAUSED →
     (∀ tm, posix m !! timer_id t = Some tm → armed = true →
        let m' := mk_machine
                    (<[p := mk_hs_timer (timer_id t) E_HS_TIMER_STATUS_PAUSED
                             (timer_cb t) (repeat_count t) (timeout_ms t) (user_data t)]>
                       (heap m))
                    (<[timer_id t := mk_posix_timer (sival_ptr tm) itimerspec_zero]>
                       (posix m)) in
        hs_timer_pause armed p m = Some (0, m')
        ∧ hs_timer_pause armed p m' = Some (0, m')
        ∧ hs_timer_is_paused p m' = Some true)
     ∧ (posix m !! timer_id t = None ∨ armed = false →
        hs_timer_pause armed p m = Some (-3, m)))
  ∧ (status t = E_HS_TIMER_STATUS_CREATED
     ∨ status t = E_HS_TIMER_STATUS_REQUEST_DESTROY →
     hs_timer_pause armed p m = Some (-2, m)).
Proof.
  intros Hp Ht. unfold hs_timer_pause, hs_timer_is_paused.
  rewrite (nonnull_eqb _ Hp). split.
  - intros Hs. rewrite Ht. simpl.
    assert (Hg : bool_decide (status t ≠ E_HS_TIMER_STATUS_RUNNING)
                 && bool_decide (status t ≠ E_HS_TIMER_STATUS_PAUSED) = false)
      by (destruct Hs as [-> | ->]; reflexivity).
    rewrite Hg. unfold timer_settime. split.
    + intros tm Htm ->. rewrite Htm. simpl.
      split; [reflexivity |]. rewrite !lookup_insert_eq. simpl.
      split; [| reflexivity].
      rewrite lookup_insert_eq. simpl.
      unfold store, with_posix. simpl. by rewrite !insert_insert_eq.
    + intros [Hnone | ->].
      * rewrite Hnone. simpl. by rewrite with_posix_same.
      * destruct (posix m !! timer_id t); simpl; by rewrite with_posix_same.
  - rewrite Ht. simpl. intros [-> | ->]; reflexivity.
Qed.

(** Pausing the running timer at [100], twice. *)
Lemma pause_outcomes_witness :
  (100 ≠ 0 ∧ heap running_100 !! 100 = Some running_timer)
  ∧ hs_timer_pause true 100 running_100 = Some (0, paused_100)
  ∧ hs_timer_pause true 100 paused_100 = Some (0, paused_100)
  ∧ hs_timer_is_paused 100 paused_100 = Some true.
Proof.
  assert (Hp : 100 ≠ 0) by lia.
  split; [exact (conj Hp running_100_lookup) |].
  destruct (pause_outcomes true 100 running_100 running_timer Hp running_100_lookup)
    as (Hlive & _).
  destruct (Hlive (or_introl eq_refl)) as (Hok & _).
  assert (Htm : posix running_100 !! timer_id running_timer
                = Some (mk_posix_timer 100 (one_shot 50))) by (by vm_compute).
  assert (Hm : mk_machine
                 (<[100 := mk_hs_timer (timer_id running_timer) E_HS_TIMER_STATUS_PAUSED
                             (timer_cb running_timer) (repeat_count running_timer)
                             (timeout_ms running_timer) (user_data running_timer)]>
                    (heap running_100))
                 (<[timer_id running_timer
                    := mk_posix_timer (sival_ptr (mk_posix_timer 100 (one_shot 50)))
                         itimerspec_zero]> (posix running_100))
               = paused_100) by (by vm_compute).
  pose proof (Hok _ Htm eq_refl) as H. cbv zeta in H. rewrite Hm in H. exact H.
Defined.

(** X7.  [hs_timer_resume] on a live timer works from [PAUSED] only.  There
    it returns 0 exactly when [timer_settime] succeeds, re-arms the kernel
    timer for the full stored timeout, sets the status to [RUNNING] and
    changes nothing else; when [timer_settime] fails it returns [-4] and
    changes nothing.  In every other status, [RUNNING] included, it returns
    [-2] and changes nothing: it is refused exactly when
    [hs_timer_is_paused] answers false. *)
Theorem resume_outcomes (armed : bool) (p : Z) (m : Machine) (t : hs_timer_t) :
  p ≠ 0 →
  heap m !! p = Some t →
  (status t = E_HS_TIMER_STATUS_PAUSED →
     (∀ tm, posix m !! timer_id t = Some tm → armed = true →
        hs_timer_resume armed p m
        = Some (0, mk_machine
                     (<[p := mk_hs_timer (timer_id t) E_HS_TIMER_STATUS_RUNNING
                              (timer_cb t) (repeat_count t) (timeout_ms t) (user_data t)]>
                        (heap m))
                     (<[timer_id t := mk_posix_timer (sival_ptr tm)
                                        (one_shot (timeout_ms t))]> (posix m))))
     ∧ (posix m !! timer_id t = None ∨ armed = false →
        hs_timer_resume armed p m = Some (-4, m)))
  ∧ (status t ≠ E_HS_TIMER_STATUS_PAUSED → hs_timer_resume armed p m = Some (-2, m))
  ∧ (hs_timer_resume armed p m = Some (-2, m) ↔ hs_timer_is_paused p m = Some false).
Proof.
  intros Hp Ht. unfold hs_timer_resume, hs_timer_is_paused. enter Hp Ht.
  split; [| split].
  - intros Hs. rewrite Hs. simpl. unfold timer_settime. split.
    + intros tm Htm ->. rewrite Htm. reflexivity.
    + intros [Hnone | ->].
      * rewrite Hnone. simpl. by rewrite with_posix_same.
      * destruct (posix m !! timer_id t); simpl; by rewrite with_posix_same.
  - intros Hs. by rewrite bool_decide_eq_true_2.
  - destruct (decide (status t = E_HS_TIMER_STATUS_PAUSED)) as [Hs | Hs].
    + rewrite Hs. simpl.
      split; [| discriminate].
      settime_cases; discriminate.
    + rewrite (bool_decide_eq_true_2 _ Hs), (bool_decide_eq_false_2 _ Hs). done.
Qed.

Lemma paused_100_lookup : heap paused_100 !! 100 = Some paused_timer.
Proof. by vm_compute. Qed.

(** Resuming the paused timer at [100] gives the running timer back; resuming
    the running one is refused. *)
Lemma resume_outcomes_witness :
  (100 ≠ 0 ∧ heap paused_100 !! 100 = Some paused_timer)
  ∧ hs_timer_resume true 100 paused_100 = Some (0, running_100)
  ∧ hs_timer_resume true 100 running_100 = Some (-2, running_100).
Proof.
  assert (Hp : 100 ≠ 0) by lia.
  split; [exact (conj Hp paused_100_lookup) |].
  destruct (resume_outcomes true 100 paused_100 paused_timer Hp paused_100_lookup)
    as (Hpaused & _).
  destruct (Hpaused eq_refl) as (Hok & _).
  destruct (resume_outcomes true 100 running_100 running_timer Hp running_100_lookup)
    as (_ & Hrefused & _).
  split.
  - rewrite (Hok (mk_posix_timer 100 itimerspec_zero)); by vm_compute.
  - by apply Hrefused.
Defined.

(** X8.  Pause followed by resume on a running timer whose kernel timer is
    live: both succeed, the object ends exactly as it started, and the kernel
    timer is armed afresh for the whole stored timeout, whatever it was set
    to before.  If it was set to that timeout before, the machine is back
    where it was. *)
Theorem pause_resume_restarts (p : Z) (m : Machine) (t : hs_timer_t) (tm : posix_timer) :
  p ≠ 0 →
  heap m !! p = Some t →
  status t = E_HS_TIMER_STATUS_RUNNING →
  posix m !! timer_id t = Some tm →
  run_script [Pause true; Resume true] p m
  = Some (mk_machine (heap m)
            (<[timer_id t := mk_posix_timer (sival_ptr tm) (one_shot (timeout_ms t))]>
               (posix m)))
  ∧ (setting tm = one_shot (timeout_ms t) →
     run_script [Pause true; Resume true] p m = Some m).
Proof.
  intros Hp Ht Hs Htm.
  assert (Hrun : run_script [Pause true; Resume true] p m
                 = Some (mk_machine (heap m)
                           (<[timer_id t := mk_posix_timer (sival_ptr tm)
                                              (one_shot (timeout_ms t))]> (posix m)))).
  { simpl. unfold hs_timer_pause. enter Hp Ht. rewrite Hs. simpl.
    unfold timer_settime at 1. rewrite Htm. simpl.
    unfold hs_timer_resume. rewrite (nonnull_eqb _ Hp). simpl.
    rewrite lookup_insert_eq. simpl.
    unfold timer_settime. rewrite lookup_insert_eq. simpl.
    unfold store, with_posix. simpl.
    rewrite !insert_insert_eq. do 2 f_equal.
    apply insert_id. rewrite Ht, <- Hs. by destruct t. }
  split; [exact Hrun |].
  intros Hset. rewrite Hrun. do 2 f_equal.
  destruct m as [h k]. simpl in *. f_equal.
  apply insert_id. rewrite Htm, <- Hset. by destruct tm.
Qed.

(** Pause and resume on the running timer at [100]. *)
Lemma pause_resume_restarts_witness :
  (100 ≠ 0
   ∧ heap running_100 !! 100 = Some running_timer
   ∧ status running_timer = E_HS_TIMER_STATUS_RUNNING
   ∧ posix running_100 !! timer_id running_timer
     = Some (mk_posix_timer 100 (one_shot 50)))
  ∧ run_script [Pause true; Resume true] 100 running_100 = Some running_100.
Proof.
  assert (Hp : 100 ≠ 0) by lia.
  assert (Htm : posix running_100 !! timer_id running_timer
                = Some (mk_posix_timer 100 (one_shot 50))) by (by vm_compute).
  split; [exact (conj Hp (conj running_100_lookup (conj eq_refl Htm))) |].
  exact (proj2 (pause_resume_restarts 100 running_100 running_timer _ Hp
                  running_100_lookup eq_refl Htm) eq_refl).
Defined.

(** ** Changing the timeout *)

(** X9.  [hs_timer_set_timeout] on a live timer that is not marked for
    destruction returns 0 exactly when [timer_settime] succeeds; it then
    both stores the timeout and re-programs the kernel timer to fire once
    after the new timeout from now.  When [timer_settime] fails, as it does
    on an object that was only created and whose [timer_id] names no kernel
    timer, it returns [-4] and the stored timeout stays as it was. *)
Theorem set_timeout_outcomes (armed : bool) (p tmo : Z) (m : Machine) (t : hs_timer_t) :
  p ≠ 0 →
  heap m !! p = Some t →
  status t ≠ E_HS_TIMER_STATUS_REQUEST_DESTROY →
  (∀ tm, posix m !! timer_id t = Some tm → armed = true →
     hs_timer_set_timeout armed p tmo m
     = Some (0, mk_machine
                  (<[p := mk_hs_timer (timer_id t) (status t) (timer_cb t)
                           (repeat_count t) tmo (user_data t)]> (heap m))
                  (<[timer_id t := mk_posix_timer (sival_ptr tm) (one_shot tmo)]>
                     (posix m))))
  ∧ (posix m !! timer_id t = None ∨ armed = false →
     hs_timer_set_timeout armed p tmo m = Some (-4, m)
     ∧ hs_timer_get_timeout p m = Some (0, Some (timeout_ms t))).
Proof.
  intros Hp Ht Hs. unfold hs_timer_set_timeout, hs_timer_get_timeout. enter Hp Ht.
  assert (Hc : hs_timer_can_set_params t = true)
    by (unfold hs_timer_can_set_params; by destruct (status t)).
  rewrite Hc. simpl. unfold timer_settime. split.
  - intros tm Htm ->. rewrite Htm. reflexivity.
  - intros [Hnone | ->].
    + rewrite Hnone. simpl. by rewrite with_posix_same.
    + destruct (posix m !! timer_id t); simpl; by rewrite with_posix_same.
Qed.

(** On the object just created at [100] the timeout cannot be set: its
    timer id (77) names no kernel timer. *)
Lemma set_timeout_outcomes_witness :
  (100 ≠ 0
   ∧ heap created_100 !! 100
     = Some (mk_hs_timer 77 E_HS_TIMER_STATUS_CREATED 0 UINT32_MAX 0 0)
   ∧ E_HS_TIMER_STATUS_CREATED ≠ E_HS_TIMER_STATUS_REQUEST_DESTROY)
  ∧ hs_timer_set_timeout true 100 500 created_100 = Some (-4, created_100)
  ∧ hs_timer_get_timeout 100 created_100 = Some (0, Some 0).
Proof.
  assert (Hp : 100 ≠ 0) by lia.
  assert (Ht : heap created_100 !! 100
               = Some (mk_hs_timer 77 E_HS_TIMER_STATUS_CREATED 0 UINT32_MAX 0 0))
    by (by vm_compute).
  assert (Hs : E_HS_TIMER_STATUS_CREATED ≠ E_HS_TIMER_STATUS_REQUEST_DESTROY) by done.
  split; [exact (conj Hp (conj Ht Hs)) |].
  apply (proj2 (set_timeout_outcomes true 100 500 created_100 _ Hp Ht Hs)).
  left. by vm_compute.
Defined.

(** ** The notification thread: destruction requested from outside *)

(** X10.  Destroying a running timer is completed by the next firing: after
    [hs_timer_destroy] the object is still live and readable, and the next
    run of [hs_timer_thread] calls no callback, deletes the kernel timer and
    frees the object, whatever the callback would have done. *)
Theorem destroy_completes_at_next_firing (user_code : Z → Z → Machine → Machine)
    (armed : bool) (p : Z) (m : Machine) (t : hs_timer_t) :
  p ≠ 0 →
  heap m !! p = Some t →
  status t = E_HS_TIMER_STATUS_RUNNING →
  (r ← hs_timer_destroy p m; hs_timer_get_repeat_count p r.2)
  = Some (0, Some (repeat_count t))
  ∧ (r ← hs_timer_destroy p m; hs_timer_thread user_code armed p r.2)
    = Some ([], mk_machine (delete p (heap m)) (delete (timer_id t) (posix m))).
Proof.
  intros Hp Ht Hs.
  unfold hs_timer_destroy, hs_timer_get_repeat_count, hs_timer_thread.
  enter Hp Ht. rewrite Hs. simpl. rewrite lookup_insert_eq. simpl.
  split; [done |].
  unfold thread_teardown, free, with_posix, store, timer_delete. simpl.
  by rewrite delete_insert_eq.
Qed.

(** Destroying the running timer at [100], then one firing: nothing is left
    and nothing was called. *)
Lemma destroy_completes_at_next_firing_witness :
  (100 ≠ 0
   ∧ heap running_100 !! 100 = Some running_timer
   ∧ status running_timer = E_HS_TIMER_STATUS_RUNNING)
  ∧ hs_timer_thread passive true 100 doomed_100 = Some ([], boot).
Proof.
  assert (Hp : 100 ≠ 0) by lia.
  split; [exact (conj Hp (conj running_100_lookup eq_refl)) |].
  pose proof (proj2 (destroy_completes_at_next_firing passive true 100 running_100
                       running_timer Hp running_100_lookup eq_refl)) as H.
  etransitivity; [| etransitivity; [exact H |]]; by vm_compute.
Defined.

(** ** The notification thread: an unlimited repeat count *)

Lemma timer_settime_dom (armed : bool) (id : Z) (s : itimerspec)
    (k : gmap Z posix_timer) :
  dom (timer_settime armed id s k).2 = dom k.
Proof.
  destruct (timer_settime_cases armed id s k) as [E | (tm & Htm & _ & E)];
    rewrite E; simpl; [done |].
  rewrite dom_insert_L. apply (elem_of_dom_2 (D := gset Z)) in Htm.
  apply subseteq_union_1_L. by apply singleton_subseteq_l.
Qed.

(** X11.  A running timer whose repeat count is [HS_TIMER_REPEAT_FOREVER]
    never retires by itself: with a callback that is set and leaves the
    timer alone, any number of firings calls the callback once per firing,
    each time on the unchanged object, and afterwards the object is exactly
    as before, no kernel timer has appeared or disappeared, and the other
    kernel timers are untouched. *)
Theorem forever_never_retires (user_code : Z → Z → Machine → Machine)
    (p cb : Z) (m : Machine) (t : hs_timer_t) (oks : list bool) :
  p ≠ 0 →
  cb ≠ 0 →
  (∀ m, user_code cb p m = m) →
  heap m !! p = Some t →
  status t = E_HS_TIMER_STATUS_RUNNING →
  timer_cb t = cb →
  repeat_count t = HS_TIMER_REPEAT_FOREVER →
  ∃ m',
    fire user_code oks p m = Some (replicate (length oks) (mk_call cb p t), m')
    ∧ heap m' = heap m
    ∧ dom (posix m') = dom (posix m)
    ∧ delete (timer_id t) (posix m') = delete (timer_id t) (posix m).
Proof.
  intros Hp Hcb Hpassive Ht Hs Hc Hr. revert m Ht.
  induction oks as [| ok oks IH]; intros m Ht.
  - by exists m.
  - assert (Hstep : hs_timer_thread user_code ok p m
                    = Some ([mk_call cb p t],
                            mk_machine (heap m)
                              (timer_settime ok (timer_id t) (one_shot (timeout_ms t))
                                 (posix m)).2)).
    { rewrite (hs_timer_thread_unfold user_code ok p m t Hp Ht) by (by rewrite Hs).
      cbv zeta. rewrite (thread_count_idle t) by (by right).
      rewrite (store_same p t m Ht), Hc.
      apply Z.eqb_neq in Hcb as ->. rewrite Hpassive.
      rewrite (thread_finish_rearm ok p m t Ht Hs) by (rewrite Hr; discriminate).
      reflexivity. }
    destruct (IH (mk_machine (heap m)
                    (timer_settime ok (timer_id t) (one_shot (timeout_ms t)) (posix m)).2)
                Ht) as (m' & Hf & Hh & Hd & Hk).
    exists m'. cbn [fire]. rewrite Hstep. simpl. rewrite Hf. simpl.
    split; [done |]. split; [done |]. simpl in Hd, Hk.
    split; [by rewrite Hd, timer_settime_dom | by rewrite Hk, timer_settime_delete].
Qed.

Lemma forever_100_lookup : heap forever_100 !! 100 = Some forever_timer.
Proof. by vm_compute. Qed.

(** Four firings of the forever timer at [100] leave it as it is. *)
Lemma forever_never_retires_witness :
  (100 ≠ 0 ∧ 9 ≠ 0 ∧ (∀ m, passive 9 100 m = m)
   ∧ heap forever_100 !! 100 = Some forever_timer
   ∧ status forever_timer = E_HS_TIMER_STATUS_RUNNING
   ∧ timer_cb forever_timer = 9
   ∧ repeat_count forever_timer = HS_TIMER_REPEAT_FOREVER)
  ∧ ∃ m', fire passive [true; true; true; true] 100 forever_100
          = Some (replicate 4 (mk_call 9 100 forever_timer), m')
          ∧ heap m' = heap forever_100.
Proof.
  assert (Hp : 100 ≠ 0) by lia.
  assert (Hcb : 9 ≠ 0) by lia.
  assert (Hpassive : ∀ m, passive 9 100 m = m) by reflexivity.
  split; [exact (conj Hp (conj Hcb (conj Hpassive (conj forever_100_lookup
            (conj eq_refl (conj eq_refl eq_refl)))))) |].
  destruct (forever_never_retires passive 100 9 forever_100 forever_timer
              [true; true; true; true] Hp Hcb Hpassive forever_100_lookup
              eq_refl eq_refl eq_refl) as (m' & Hf & Hh & _).
  exists m'. exact (conj Hf Hh).
Defined.

(** ** The notification thread: callbacks that call back *)

Lemma thread_count_not_last (t : hs_timer_t) :
  repeat_count t = HS_TIMER_REPEAT_FOREVER ∨ 1 < repeat_count t < UINT32_MAX →
  ∃ n, thread_count t = set_repeat_count n t ∧ n ≠ 0.
Proof.
  intros [H | H].
  - exists (repeat_count t).
    rewrite thread_count_idle by (by right). rewrite set_repeat_count_same.
    split; [done |]. rewrite H. discriminate.
  - exists (repeat_count t - 1). split; [by apply thread_count_more | lia].
Qed.

(** X12.  A callback may pause its own timer.  On a running timer with more
    than one repetition left (or an unlimited count) whose callback calls
    [hs_timer_pause], the firing counts, calls the callback on the counted
    object, and then does not re-arm: the timer is left [PAUSED] with its
    kernel timer disarmed. *)
Theorem callback_may_pause (armed : bool) (p : Z) (m : Machine) (t : hs_timer_t)
    (tm : posix_timer) :
  p ≠ 0 →
  heap m !! p = Some t →
  status t = E_HS_TIMER_STATUS_RUNNING →
  timer_cb t ≠ 0 →
  repeat_count t = HS_TIMER_REPEAT_FOREVER ∨ 1 < repeat_count t < UINT32_MAX →
  posix m !! timer_id t = Some tm →
  let t1 := thread_count t in
  let m' := mk_machine (<[p := set_status E_HS_TIMER_STATUS_PAUSED t1]> (heap m))
              (<[timer_id t := mk_posix_timer (sival_ptr tm) itimerspec_zero]> (posix m)) in
  hs_timer_thread pausing armed p m = Some ([mk_call (timer_cb t) p t1], m')
  ∧ hs_timer_is_paused p m' = Some true.
Proof.
  intros Hp Ht Hs Hcb Hr Htm t1 m'.
  destruct (thread_count_not_last t Hr) as (n & Hn & Hn0).
  split.
  - rewrite (hs_timer_thread_unfold pausing armed p m t Hp Ht) by (by rewrite Hs).
    cbv zeta. fold t1. subst m'.
    apply Z.eqb_neq in Hcb as ->. apply Z.eqb_neq in Hn0.
    unfold pausing, after. simpl. unfold hs_timer_pause.
    rewrite (nonnull_eqb _ Hp). simpl. rewrite lookup_insert_eq. simpl.
    subst t1. rewrite Hn. simpl. rewrite Hs. simpl.
    unfold timer_settime. rewrite Htm. simpl.
    unfold thread_finish. simpl. rewrite lookup_insert_eq. simpl. rewrite Hn0. simpl.
    unfold store, with_posix. simpl. by rewrite insert_insert_eq.
  - subst m'. unfold hs_timer_is_paused. rewrite (nonnull_eqb _ Hp). simpl.
    by rewrite lookup_insert_eq.
Qed.

(** The running timer at [100] with a pausing callback: one call, then
    paused with two repetitions left. *)
Lemma callback_may_pause_witness :
  (100 ≠ 0
   ∧ heap running_100 !! 100 = Some running_timer
   ∧ status running_timer = E_HS_TIMER_STATUS_RUNNING
   ∧ timer_cb running_timer ≠ 0
   ∧ (repeat_count running_timer = HS_TIMER_REPEAT_FOREVER
      ∨ 1 < repeat_count running_timer < UINT32_MAX)
   ∧ posix running_100 !! timer_id running_timer
     = Some (mk_posix_timer 100 (one_shot 50)))
  ∧ hs_timer_thread pausing true 100 running_100
    = Some ([mk_call 9 100 (set_repeat_count 2 running_timer)],
            after [SetRepeatCount 2] 100 paused_100).
Proof.
  assert (Hp : 100 ≠ 0) by lia.
  assert (Hcb : timer_cb running_timer ≠ 0) by (by vm_compute).
  assert (Hr : repeat_count running_timer = HS_TIMER_REPEAT_FOREVER
               ∨ 1 < repeat_count running_timer < UINT32_MAX)
    by (right; by vm_compute).
  assert (Htm : posix running_100 !! timer_id running_timer
                = Some (mk_posix_timer 100 (one_shot 50))) by (by vm_compute).
  split; [exact (conj Hp (conj running_100_lookup (conj eq_refl (conj Hcb (conj Hr Htm))))) |].
  pose proof (proj1 (callback_may_pause true 100 running_100 running_timer _ Hp
                       running_100_lookup eq_refl Hcb Hr Htm)) as H.
  etransitivity; [exact H |]. by vm_compute.
Defined.

(** X13.  A callback may destroy its own timer.  On a running timer whose
    callback calls [hs_timer_destroy], the same firing that made the call
    deletes the kernel timer and frees the object; no further firing is
    needed, whatever the repeat count and the timeout are. *)
Theorem callback_may_destroy (armed : bool) (p : Z) (m : Machine) (t : hs_timer_t) :
  p ≠ 0 →
  heap m !! p = Some t →
  status t = E_HS_TIMER_STATUS_RUNNING →
  timer_cb t ≠ 0 →
  hs_timer_thread destroying armed p m
  = Some ([mk_call (timer_cb t) p (thread_count t)],
          mk_machine (delete p (heap m)) (delete (timer_id t) (posix m))).
Proof.
  intros Hp Ht Hs Hcb.
  rewrite (hs_timer_thread_unfold destroying armed p m t Hp Ht) by (by rewrite Hs).
  cbv zeta. apply Z.eqb_neq in Hcb as ->.
  destruct (thread_count_fields t) as (Hid & _).
  assert (Hst : status (thread_count t) = E_HS_TIMER_STATUS_RUNNING
                ∨ status (thread_count t) = E_HS_TIMER_STATUS_REQUEST_DESTROY).
  { unfold thread_count.
    destruct ((0 <? repeat_count t) && (repeat_count t <? UINT32_MAX)); [| by left].
    simpl. destruct (u32 (repeat_count t - 1) =? 0); [by right | by left]. }
  unfold destroying, after. simpl. unfold hs_timer_destroy.
  rewrite (nonnull_eqb _ Hp). simpl. rewrite lookup_insert_eq. simpl.
  destruct Hst as [Hst | Hst]; rewrite Hst; simpl.
  - rewrite (thread_finish_teardown armed p _
               (set_status E_HS_TIMER_STATUS_REQUEST_DESTROY (thread_count t)));
      [| simpl; apply lookup_insert_eq | by left].
    unfold thread_teardown, free, with_posix, store, timer_delete. simpl.
    by rewrite Hid, !delete_insert_eq.
  - rewrite (thread_finish_teardown armed p _ (thread_count t));
      [| simpl; apply lookup_insert_eq | by left].
    unfold thread_teardown, free, with_posix, store, timer_delete. simpl.
    by rewrite Hid, !delete_insert_eq.
Qed.

(** The forever timer at [100] with a destroying callback: one call, and
    nothing is left. *)
Lemma callback_may_destroy_witness :
  (100 ≠ 0
   ∧ heap forever_100 !! 100 = Some forever_timer
   ∧ status forever_timer = E_HS_TIMER_STATUS_RUNNING
   ∧ timer_cb forever_timer ≠ 0)
  ∧ hs_timer_thread destroying true 100 forever_100
    = Some ([mk_call 9 100 forever_timer], boot).
Proof.
  assert (Hp : 100 ≠ 0) by lia.
  assert (Hcb : timer_cb forever_timer ≠ 0) by (by vm_compute).
  split; [exact (conj Hp (conj forever_100_lookup (conj eq_refl Hcb))) |].
  pose proof (callback_may_destroy true 100 forever_100 forever_timer Hp
                forever_100_lookup eq_refl Hcb) as H.
  etransitivity; [exact H |]. by vm_compute.
Defined.

(** ** The notification thread: a paused timer *)

(** X14.  Pausing does not stop a firing that is already on its way.  When
    [hs_timer_thread] runs on a [PAUSED] timer with more than one repetition
    left (or an unlimited count) and a callback that leaves the timer alone,
    it still counts the firing and calls the callback; it then does not
    re-arm, so the kernel timers are untouched and the timer stays
    [PAUSED]. *)
Theorem firing_on_paused_timer (user_code : Z → Z → Machine → Machine)
    (armed : bool) (p : Z) (m : Machine) (t : hs_timer_t) :
  p ≠ 0 →
  heap m !! p = Some t →
  status t = E_HS_TIMER_STATUS_PAUSED →
  timer_cb t ≠ 0 →
  (∀ m, user_code (timer_cb t) p m = m) →
  repeat_count t = HS_TIMER_REPEAT_FOREVER ∨ 1 < repeat_count t < UINT32_MAX →
  let t1 := thread_count t in
  hs_timer_thread user_code armed p m
  = Some ([mk_call (timer_cb t) p t1], mk_machine (<[p := t1]> (heap m)) (posix m))
  ∧ status t1 = E_HS_TIMER_STATUS_PAUSED
  ∧ (1 < repeat_count t < UINT32_MAX → repeat_count t1 = repeat_count t - 1).
Proof.
  intros Hp Ht Hs Hcb Hpassive Hr t1.
  destruct (thread_count_not_last t Hr) as (n & Hn & Hn0).
  split; [| split].
  - rewrite (hs_timer_thread_unfold user_code armed p m t Hp Ht) by (by rewrite Hs).
    cbv zeta. fold t1. apply Z.eqb_neq in Hcb as ->. rewrite Hpassive.
    unfold thread_finish. simpl. rewrite lookup_insert_eq. simpl.
    subst t1. rewrite Hn. simpl. rewrite Hs. simpl.
    apply Z.eqb_neq in Hn0 as ->. reflexivity.
  - subst t1. by rewrite Hn.
  - intros H. subst t1. by rewrite (thread_count_more t H).
Qed.

(** A firing on the paused timer at [100]. *)
Lemma firing_on_paused_timer_witness :
  (100 ≠ 0
   ∧ heap paused_100 !! 100 = Some paused_timer
   ∧ status paused_timer = E_HS_TIMER_STATUS_PAUSED
   ∧ timer_cb paused_timer ≠ 0
   ∧ (∀ m, passive (timer_cb paused_timer) 100 m = m)
   ∧ (repeat_count paused_timer = HS_TIMER_REPEAT_FOREVER
      ∨ 1 < repeat_count paused_timer < UINT32_MAX))
  ∧ hs_timer_thread passive true 100 paused_100
    = Some ([mk_call 9 100 (set_repeat_count 2 paused_timer)],
            after [SetRepeatCount 2] 100 paused_100).
Proof.
  assert (Hp : 100 ≠ 0) by lia.
  assert (Hcb : timer_cb paused_timer ≠ 0) by (by vm_compute).
  assert (Hpassive : ∀ m, passive (timer_cb paused_timer) 100 m = m) by reflexivity.
  assert (Hr : repeat_count paused_timer = HS_TIMER_REPEAT_FOREVER
               ∨ 1 < repeat_count paused_timer < UINT32_MAX)
    by (right; by vm_compute).
  split; [exact (conj Hp (conj paused_100_lookup (conj eq_refl (conj Hcb
            (conj Hpassive Hr))))) |].
  pose proof (proj1 (firing_on_paused_timer passive true 100 paused_100 paused_timer
                       Hp paused_100_lookup eq_refl Hcb Hpassive Hr)) as H.
  etransitivity; [exact H |]. by vm_compute.
Defined.

(** ** Whole lives of a timer *)

(** X15.  No life of a timer leaves anything behind.  Create an object at a
    fresh address and start it on a fresh kernel timer; then, whichever way
    it ends, the machine is again exactly the one before the creation:
    (a) paused, then destroyed; (b) destroyed while running, then one
    firing, which calls nothing; (c) with a finite repeat count [N ≥ 1] and a
    callback that leaves the timer alone, [N] firings and no destroy at
    all, which call the callback [N] times. *)
Theorem lifecycle_leaves_nothing (user_code : Z → Z → Machine → Machine)
    (addr junk id cb count tmo data : Z) (m : Machine) :
  addr ≠ 0 →
  heap m !! addr = None →
  posix m !! id = None →
  let m1 := (hs_timer_create addr junk m).2 in
  run_script [Init (Some id) true cb count tmo data; Pause true; Destroy] addr m1
  = Some m
  ∧ (∀ armed,
       (r ← run_script [Init (Some id) true cb count tmo data; Destroy] addr m1;
        hs_timer_thread user_code armed addr r)
       = Some ([], m))
  ∧ (∀ oks,
       cb ≠ 0 → (∀ m, user_code cb addr m = m) →
       1 ≤ count < UINT32_MAX → Z.of_nat (length oks) = count →
       ∃ calls,
         (r ← run_script [Init (Some id) true cb count tmo data] addr m1;
          fire user_code oks addr r)
         = Some (calls, m)
         ∧ Z.of_nat (length calls) = count
         ∧ Forall (by_cb addr cb) calls).
Proof.
  intros Hp Hfree Hid m1.
  assert (Ht1 : heap m1 !! addr
                = Some (mk_hs_timer junk E_HS_TIMER_STATUS_CREATED 0 (u32 (-1)) 0 0)).
  { subst m1. unfold hs_timer_create. rewrite (nonnull_eqb _ Hp). simpl.
    apply lookup_insert_eq. }
  assert (Hk1 : posix m1 = posix m).
  { subst m1. unfold hs_timer_create. by rewrite (nonnull_eqb _ Hp). }
  assert (Hh1 : heap m1 = <[addr := mk_hs_timer junk E_HS_TIMER_STATUS_CREATED 0 (u32 (-1)) 0 0]>
                            (heap m)).
  { subst m1. unfold hs_timer_create. by rewrite (nonnull_eqb _ Hp). }
  pose (t2 := mk_hs_timer id E_HS_TIMER_STATUS_RUNNING cb count tmo data).
  pose (m2 := mk_machine (<[addr := t2]> (heap m))
                (<[id := mk_posix_timer addr (one_shot tmo)]> (posix m))).
  assert (Hinit : hs_timer_init (Some id) true addr cb count tmo data m1 = Some (0, m2)).
  { rewrite (hs_timer_init_cases (Some id) true addr cb count tmo data m1 _ Hp Ht1).
    unfold closed_first. simpl. rewrite Hk1, Hh1, insert_insert_eq. reflexivity. }
  assert (Ht2 : heap m2 !! addr = Some t2) by apply lookup_insert_eq.
  assert (Hback : mk_machine (delete addr (heap m2)) (delete (timer_id t2) (posix m2)) = m).
  { unfold m2, t2. simpl. rewrite !delete_insert_eq, !delete_id by done.
    by destruct m. }
  split; [| split].
  - cbn [run_script run_api]. rewrite Hinit. simpl.
    unfold hs_timer_pause. rewrite (nonnull_eqb _ Hp). simpl.
    rewrite lookup_insert_eq. simpl.
    unfold timer_settime. rewrite lookup_insert_eq. simpl.
    unfold hs_timer_destroy. rewrite (nonnull_eqb _ Hp). simpl.
    rewrite lookup_insert_eq. simpl.
    unfold free, with_posix, store, timer_delete. simpl.
    rewrite !delete_insert_eq, !delete_id by done. by destruct m.
  - intros armed. cbn [run_script run_api]. rewrite Hinit. simpl.
    unfold hs_timer_destroy. rewrite (nonnull_eqb _ Hp). simpl.
    rewrite lookup_insert_eq. simpl.
    unfold hs_timer_thread. rewrite (nonnull_eqb _ Hp). simpl.
    rewrite lookup_insert_eq. simpl.
    unfold thread_teardown, free, with_posix, store, timer_delete. simpl.
    rewrite !delete_insert_eq, !delete_id by done. by destruct m.
  - intros oks Hcb Hpassive Hcount Hlen.
    cbn [run_script run_api]. rewrite Hinit. simpl.
    destruct (fire_countdown user_code addr cb Hp Hcb Hpassive oks m2 t2 Ht2)
      as (calls & Hf & Hl & Hall); [done | done | simpl; lia | simpl; lia |].
    exists calls. rewrite Hf, Hback. split; [done |]. split; [lia | done].
Qed.

(** On the empty machine: create at [100], start on kernel timer 5, pause,
    destroy; the machine is empty again. *)
Lemma lifecycle_leaves_nothing_witness :
  (100 ≠ 0 ∧ heap boot !! 100 = None ∧ posix boot !! 5 = None)
  ∧ run_script [Init (Some 5) true 9 3 50 0; Pause true; Destroy] 100 created_100
    = Some boot.
Proof.
  assert (Hp : 100 ≠ 0) by lia.
  assert (Hfree : heap boot !! 100 = None) by apply lookup_empty.
  assert (Hid : posix boot !! 5 = None) by apply lookup_empty.
  split; [exact (conj Hp (conj Hfree Hid)) |].
  exact (proj1 (lifecycle_leaves_nothing passive 100 77 5 9 3 50 0 boot Hp Hfree Hid)).
Defined.

(** ** What a successful initialisation leaves *)

(** X16.  After a successful [hs_timer_init] the kernel timer it created is
    bound to this handle (its [sival_ptr] is the object's address) and set
    to fire once after the timeout; the getters return the supplied repeat
    count, timeout and user data; the timer is not paused.  With a timeout
    of 0 the call succeeds all the same and the status is [RUNNING], but the
    kernel timer is disarmed, so no firing is pending. *)
Theorem init_arms_for_handle (created : option Z) (armed : bool)
    (p cb count tmo data : Z) (m m' : Machine) :
  hs_timer_init created armed p cb count tmo data m = Some (0, m') →
  ∃ id,
    created = Some id
    ∧ heap m' !! p = Some (mk_hs_timer id E_HS_TIMER_STATUS_RUNNING cb count tmo data)
    ∧ posix m' !! id = Some (mk_posix_timer p (one_shot tmo))
    ∧ hs_timer_get_repeat_count p m' = Some (0, Some count)
    ∧ hs_timer_get_timeout p m' = Some (0, Some tmo)
    ∧ hs_timer_get_user_data p m' = Some data
    ∧ hs_timer_is_paused p m' = Some false
    ∧ (tmo = 0 → disarms (one_shot tmo) = true).
Proof.
  intros H.
  destruct (hs_timer_init_success _ _ _ _ _ _ _ _ _ H)
    as (id & t & Hp & Ht & -> & -> & ->).
  exists id.
  unfold hs_timer_get_repeat_count, hs_timer_get_timeout, hs_timer_get_user_data,
    hs_timer_is_paused.
  rewrite (nonnull_eqb _ Hp). simpl. rewrite !lookup_insert_eq. simpl.
  repeat (split; [done |]). by intros ->.
Qed.

(** Starting the object at [100] with a timeout of 0. *)
Lemma init_arms_for_handle_witness :
  hs_timer_init (Some 5) true 100 9 3 0 0 created_100
  = Some (0, after [Init (Some 5) true 9 3 0 0] 100 created_100)
  ∧ posix (after [Init (Some 5) true 9 3 0 0] 100 created_100) !! 5
    = Some (mk_posix_timer 100 itimerspec_zero).
Proof.
  assert (H : hs_timer_init (Some 5) true 100 9 3 0 0 created_100
              = Some (0, after [Init (Some 5) true 9 3 0 0] 100 created_100))
    by (by vm_compute).
  split; [exact H |].
  destruct (init_arms_for_handle _ _ _ _ _ _ _ _ _ H) as (id & Hid & _ & Hk & _).
  injection Hid as <-. exact Hk.
Defined.

(** ** Stopping an unlimited timer *)

(** X17.  A new repeat count takes effect from the next firing on.  On a
    running timer, whatever its count was (unlimited included), after
    [hs_timer_set_repeat_count] with a finite [N ≥ 1] and a callback that
    leaves the timer alone, [N] firings call the callback [N] times and the
    last of them deletes the kernel timer and frees the object. *)
Theorem set_repeat_count_bounds_firings (user_code : Z → Z → Machine → Machine)
    (p N : Z) (m : Machine) (t : hs_timer_t) (oks : list bool) :
  p ≠ 0 →
  heap m !! p = Some t →
  status t = E_HS_TIMER_STATUS_RUNNING →
  timer_cb t ≠ 0 →
  (∀ m, user_code (timer_cb t) p m = m) →
  1 ≤ N < UINT32_MAX →
  Z.of_nat (length oks) = N →
  ∃ calls,
    (r ← hs_timer_set_repeat_count p N m; fire user_code oks p r.2)
    = Some (calls, mk_machine (delete p (heap m)) (delete (timer_id t) (posix m)))
    ∧ Z.of_nat (length calls) = N
    ∧ Forall (by_cb p (timer_cb t)) calls.
Proof.
  intros Hp Ht Hs Hcb Hpassive HN Hlen.
  unfold hs_timer_set_repeat_count. enter Hp Ht.
  unfold hs_timer_can_set_params. rewrite Hs. simpl.
  destruct (fire_countdown user_code p (timer_cb t) Hp Hcb Hpassive oks
              (store p (set_repeat_count N t) m) (set_repeat_count N t))
    as (calls & Hf & Hl & Hall);
    [apply lookup_insert_eq | exact Hs | done | simpl; lia | simpl; lia |].
  exists calls. rewrite Hf. simpl. rewrite delete_insert_eq.
  split; [done |]. split; [lia | done].
Qed.

(** The forever timer at [100], told to fire twice more. *)
Lemma set_repeat_count_bounds_firings_witness :
  (100 ≠ 0
   ∧ heap forever_100 !! 100 = Some forever_timer
   ∧ status forever_timer = E_HS_TIMER_STATUS_RUNNING
   ∧ timer_cb forever_timer ≠ 0
   ∧ (∀ m, passive (timer_cb forever_timer) 100 m = m)
   ∧ 1 ≤ 2 < UINT32_MAX
   ∧ Z.of_nat (length [true; true]) = 2)
  ∧ ∃ calls,
      fire passive [true; true] 100 (after [SetRepeatCount 2] 100 forever_100)
      = Some (calls, boot)
      ∧ Z.of_nat (length calls) = 2.
Proof.
  assert (Hp : 100 ≠ 0) by lia.
  assert (Hcb : timer_cb forever_timer ≠ 0) by (by vm_compute).
  assert (Hpassive : ∀ m, passive (timer_cb forever_timer) 100 m = m) by reflexivity.
  assert (HN : 1 ≤ 2 < UINT32_MAX) by (by vm_compute).
  assert (Hlen : Z.of_nat (length [true; true]) = 2) by reflexivity.
  split; [exact (conj Hp (conj forever_100_lookup (conj eq_refl (conj Hcb
            (conj Hpassive (conj HN Hlen)))))) |].
  destruct (set_repeat_count_bounds_firings passive 100 2 forever_100 forever_timer
              [true; true] Hp forever_100_lookup eq_refl Hcb Hpassive HN Hlen)
    as (calls & Hf & Hl & _).
  exists calls. split; [| exact Hl].
  etransitivity; [| etransitivity; [exact Hf |]]; by vm_compute.
Defined.
